(** * The HTTP facade of the creative builder ([src/api/api.py])

    A shallow embedding of the route handlers of [api.py] and the
    properties its specification states about them.

    The handlers are thin: each one calls collaborators that live outside
    the file (the pipeline runner [run_turn], the settings loader, the
    Mongo connection, the two repositories, [os.path.exists]) and maps
    what comes back, value or exception, to an HTTP outcome.  The
    embedding therefore has three layers:

    - Python values, exceptions and the [or] operator;
    - a state-and-exception monad over the two module globals
      ([_settings], [_handles]), the outside world and a log of the
      calls made to collaborators;
    - the handlers themselves, written over an interface
      ([Collaborators]) that gives each collaborator's behaviour. *)

From Stdlib Require Import ZArith Ascii String.
From stdpp Require Import base option list strings pretty gmap fin_maps infinite sorting.

Local Open Scope Z_scope.
Local Open Scope string_scope.

(** ** Python values *)

(** The values that travel through the facade untouched ([Any] in the
    type hints): JSON-like data.  A float is kept as its binary64 bit
    pattern; a dict as its items in insertion order. *)
#[warnings="-register-all"]
Inductive pyval : Type :=
| PNone
| PBool (b : bool)
| PInt (z : Z)
| PFloat (bits : Z)
| PStr (s : string)
| PList (l : list pyval)
| PDict (d : list (string * pyval)).

Abbreviation pydict := (list (string * pyval)).

(** Truth value of an object, as [not x] and [x or y] test it. *)
Definition truthy (v : pyval) : bool :=
  match v with
  | PNone => false
  | PBool b => b
  | PInt z => negb (Z.eqb z 0)
  | PFloat bits => negb (Z.eqb (Z.land bits (2 ^ 63 - 1)) 0)
  | PStr s => negb (String.eqb s "")
  | PList l => negb (Nat.eqb (length l) 0)
  | PDict d => negb (Nat.eqb (length d) 0)
  end.

(** [x or d] at the three types the facade uses it at.  [x] has an
    [Optional[...]] type: [None] and the empty container or string are
    falsy and give [d]. *)
Definition or_list {A} (x : option (list A)) (d : list A) : list A :=
  match x with
  | Some (a :: l) => a :: l
  | Some [] | None => d
  end.

Definition or_str (x : option string) (d : string) : string :=
  match x with
  | Some (String a s) => String a s
  | Some EmptyString | None => d
  end.

(** ** Exceptions and results *)

(** Instances of [Exception].  [HTTPException] is the framework's
    exception that a handler raises to choose a status code; every
    other exception class is kept by name, with the text [str(e)]
    gives for it. *)
Inductive exn : Type :=
| HTTPException (status_code : Z) (detail : string)
| PyException (cls : string) (msg : string).

Inductive pyres (A : Type) : Type :=
| Ok (a : A)
| Raise (e : exn).
Arguments Ok {A} a.
Arguments Raise {A} e.

Definition is_ok {A} (r : pyres A) : bool :=
  match r with Ok _ => true | Raise _ => false end.

(** What the framework answers for an outcome: 200 for a value that is
    sent as it is, the exception's own code for an [HTTPException], and
    500 for an exception nobody handled.  A [FileResponse] is not sent
    as it is: the file is opened when the response goes out (see
    [serve_artifact]). *)
Definition http_status {A} (r : pyres A) : Z :=
  match r with
  | Ok _ => 200
  | Raise (HTTPException c _) => c
  | Raise (PyException _ _) => 500
  end.

(** An exception that leaves the handler without being an
    [HTTPException]. *)
Definition unhandled {A} (r : pyres A) : bool :=
  match r with
  | Raise (PyException _ _) => true
  | _ => false
  end.

(** ** Request and response models *)

(** How a client may present an optional body field. *)
Inductive field (A : Type) : Type :=
| Omitted
| Null
| Given (a : A).
Arguments Omitted {A}.
Arguments Null {A}.
Arguments Given {A} a.

(** A field of type [Optional[A]] with a default: the default when the
    key is omitted, [None] for an explicit null. *)
Definition with_default {A} (d : option A) (f : field A) : option A :=
  match f with
  | Omitted => d
  | Null => None
  | Given a => Some a
  end.

Module TurnRequest.
Record t : Type := mk {
  user_text : string;
  session_id : option string;
  attachments : option (list pydict);
  ui_context : option pydict;
  title_if_new : option string;
  session_config : option pydict;
}.

(** A well-typed JSON body. *)
Record body : Type := mk_body {
  b_user_text : string;
  b_session_id : field string;
  b_attachments : field (list pydict);
  b_ui_context : field pydict;
  b_title_if_new : field string;
  b_session_config : field pydict;
}.

(** The model built from a body: the [Field(...)] defaults. *)
Definition of_body (b : body) : t :=
  {| user_text := b_user_text b;
     session_id := with_default None (b_session_id b);
     attachments := with_default (Some []) (b_attachments b);
     ui_context := with_default (Some []) (b_ui_context b);
     title_if_new := with_default (Some "New Session") (b_title_if_new b);
     session_config := with_default (Some []) (b_session_config b) |}.
End TurnRequest.

Module TurnResponse.
Record t : Type := mk {
  session_id : string;
  turn_id : string;
  turn_index : Z;
  compliance_result : string;
  summary : option string;
  artifacts : list pydict;
}.
End TurnResponse.

Module HealthResponse.
Record t : Type := mk {
  status : string;
  version : string;
  database : string;
}.
End HealthResponse.

Module FileResponse.
Record t : Type := mk {
  path : string;
  media_type : string;
}.
End FileResponse.

(** The keyword arguments of [run_turn]. *)
Module RunTurn.
Record args : Type := mk {
  session_id : option string;
  user_text : string;
  attachments : list pydict;
  ui_context : pydict;
  title_if_new : string;
  session_config_if_new : pydict;
}.
End RunTurn.

Record Settings : Type := { mongo_uri : string; mongo_db : string }.

(** ** Calls to collaborators *)

(** One entry per call that leaves [api.py], with its arguments. *)
Inductive Call : Type :=
| call_load_settings
| call_connect_mongo (uri db : string)
| call_find_one (key : string) (filter : pydict)
| call_run_turn (a : RunTurn.args)
| call_SessionRepo (key : string)
| call_TurnRepo (key : string)
| call_get_session (sid : string)
| call_get_turn (tid : string)
| call_get_turns_by_session (sid : string) (limit skip : Z)
| call_list
| call_exists (path : string).

(** ** The collaborators' interface *)

(** Everything [api.py] imports and calls.  [World] is the state outside
    the process (database, file system, generation pipeline); a
    collaborator returns or raises and may change it. *)
Class Collaborators : Type := {
  World : Type;
  Collection : Type;
  SessionRepoT : Type;
  TurnRepoT : Type;
  Cursor : Type;
  (** [str(e)] of an [HTTPException] (it depends on the framework's
      version). *)
  str_HTTPException : Z -> string -> string;
  load_settings : World -> pyres Settings * World;
  connect_mongo : string -> string -> World ->
                  pyres (gmap string Collection) * World;
  find_one : Collection -> pydict -> World -> pyres pyval * World;
  SessionRepo : Collection -> World -> pyres SessionRepoT * World;
  TurnRepo : Collection -> World -> pyres TurnRepoT * World;
  SessionRepo_get_session : SessionRepoT -> string -> World ->
                            pyres pyval * World;
  TurnRepo_get_turn : TurnRepoT -> string -> World -> pyres pyval * World;
  TurnRepo_get_turns_by_session : TurnRepoT -> string -> Z -> Z -> World ->
                                  pyres Cursor * World;
  py_list : Cursor -> World -> pyres (list pyval) * World;
  run_turn : RunTurn.args -> World -> pyres pyval * World;
  (** [TurnResponse( **result )]: validation of the runner's result
      against the declared fields. *)
  TurnResponse_init : pyval -> pyres TurnResponse.t;
  os_path_exists : string -> World -> bool;
}.

Section Gateway.
Context `{C : Collaborators}.

Abbreviation Handles := (gmap string Collection).

(** The process: the two module globals, the world, and the log. *)
Record St : Type := mkSt {
  _settings : option Settings;
  _handles : option Handles;
  world : World;
  calls : list Call;
}.

(** A fresh process in world [w]. *)
Definition boot (w : World) : St :=
  {| _settings := None; _handles := None; world := w; calls := [] |}.

Definition M (A : Type) : Type := St -> pyres A * St.

Definition ret {A} (a : A) : M A := fun s => (Ok a, s).

Definition raise {A} (e : exn) : M A := fun s => (Raise e, s).

Definition bind {A B} (m : M A) (k : A -> M B) : M B :=
  fun s =>
    match m s with
    | (Ok a, s') => k a s'
    | (Raise e, s') => (Raise e, s')
    end.

(** [try: body / except Exception as e: handler]. *)
Definition try_except {A} (body : M A) (handler : exn -> M A) : M A :=
  fun s =>
    match body s with
    | (Ok a, s') => (Ok a, s')
    | (Raise e, s') => handler e s'
    end.

(** A call to a collaborator: logged, then run on the world. *)
Definition call {A} (c : Call) (f : World -> pyres A * World) : M A :=
  fun s =>
    let (r, w) := f (world s) in
    (r, {| _settings := _settings s; _handles := _handles s;
           world := w; calls := calls s ++ [c] |}).

Definition set_settings (x : Settings) : M unit :=
  fun s => (Ok tt, {| _settings := Some x; _handles := _handles s;
                      world := world s; calls := calls s |}).

Definition set_handles (h : Handles) : M unit :=
  fun s => (Ok tt, {| _settings := _settings s; _handles := Some h;
                      world := world s; calls := calls s |}).

Definition py_str (e : exn) : string :=
  match e with
  | HTTPException c d => str_HTTPException c d
  | PyException _ m => m
  end.

(** [handles[key]]. *)
Definition getitem (h : Handles) (key : string) : M Collection :=
  match h !! key with
  | Some c => ret c
  | None => raise (PyException "KeyError" ("'" +:+ key +:+ "'"))
  end.
End Gateway.

Declare Scope py_scope.
Delimit Scope py_scope with py.
Notation "x <- m ;; k" := (bind m (fun x => k))
  (at level 100, m at next level, right associativity) : py_scope.
Notation "m ;;; k" := (bind m (fun _ => k))
  (at level 100, right associativity) : py_scope.
Local Open Scope py_scope.

Section Handlers.
Context `{C : Collaborators}.

Abbreviation Handles := (gmap string Collection).

Definition get_db_handles : M Handles :=
  fun s =>
    match _handles s with
    | Some h => ret h s
    | None =>
        (st <- call call_load_settings load_settings ;;
         set_settings st ;;;
         h <- call (call_connect_mongo (mongo_uri st) (mongo_db st))
                   (connect_mongo (mongo_uri st) (mongo_db st)) ;;
         set_handles h ;;;
         ret h) s
    end.

Definition health_check : M HealthResponse.t :=
  db_status <-
    try_except
      (handles <- get_db_handles ;;
       sessions <- getitem handles "sessions" ;;
       call (call_find_one "sessions" [("_id", PStr "health_check")])
            (find_one sessions [("_id", PStr "health_check")]) ;;;
       ret "connected")
      (fun e => ret ("error: " +:+ py_str e)) ;;
  ret {| HealthResponse.status := "healthy";
         HealthResponse.version := "1.0.0";
         HealthResponse.database := db_status |}.

(** The arguments [create_turn] hands to [run_turn]. *)
Definition run_turn_args (request : TurnRequest.t) : RunTurn.args :=
  {| RunTurn.session_id := TurnRequest.session_id request;
     RunTurn.user_text := TurnRequest.user_text request;
     RunTurn.attachments := or_list (TurnRequest.attachments request) [];
     RunTurn.ui_context := or_list (TurnRequest.ui_context request) [];
     RunTurn.title_if_new :=
       or_str (TurnRequest.title_if_new request) "New Session";
     RunTurn.session_config_if_new :=
       or_list (TurnRequest.session_config request) [] |}.

Definition create_turn (request : TurnRequest.t) : M TurnResponse.t :=
  try_except
    (result <- call (call_run_turn (run_turn_args request))
                    (run_turn (run_turn_args request)) ;;
     fun s => (TurnResponse_init result, s))
    (fun e =>
       raise (HTTPException 500 ("Turn generation failed: " +:+ py_str e))).

(** The two [except] clauses of the read handlers: an [HTTPException]
    is re-raised, anything else becomes a 500 with [str(e)]. *)
Definition reraise_or_500 {A} (e : exn) : M A :=
  match e with
  | HTTPException c d => raise (HTTPException c d)
  | PyException _ _ => raise (HTTPException 500 (py_str e))
  end.

Definition get_session (session_id : string) : M pyval :=
  try_except
    (handles <- get_db_handles ;;
     coll <- getitem handles "sessions" ;;
     session_repo <- call (call_SessionRepo "sessions") (SessionRepo coll) ;;
     session <- call (call_get_session session_id)
                     (SessionRepo_get_session session_repo session_id) ;;
     if negb (truthy session)
     then raise (HTTPException 404 "Session not found")
     else ret session)
    reraise_or_500.

Definition get_session_turns (session_id : string)
    (limit skip : option Z) : M pyval :=
  let limit := default 50 limit in
  let skip := default 0 skip in
  try_except
    (handles <- get_db_handles ;;
     coll <- getitem handles "turns" ;;
     turn_repo <- call (call_TurnRepo "turns") (TurnRepo coll) ;;
     cur <- call (call_get_turns_by_session session_id limit skip)
              (TurnRepo_get_turns_by_session turn_repo session_id
                 limit skip) ;;
     turns <- call call_list (py_list cur) ;;
     ret (PDict [("session_id", PStr session_id);
                 ("count", PInt (Z.of_nat (length turns)));
                 ("turns", PList turns)]))
    (fun e => raise (HTTPException 500 (py_str e))).

Definition get_turn (turn_id : string) : M pyval :=
  try_except
    (handles <- get_db_handles ;;
     coll <- getitem handles "turns" ;;
     turn_repo <- call (call_TurnRepo "turns") (TurnRepo coll) ;;
     turn <- call (call_get_turn turn_id)
                  (TurnRepo_get_turn turn_repo turn_id) ;;
     if negb (truthy turn)
     then raise (HTTPException 404 "Turn not found")
     else ret turn)
    reraise_or_500.

Definition artifact_path (session_id turn_id filename : string) : string :=
  "artifacts/" +:+ session_id +:+ "/" +:+ turn_id +:+ "/" +:+ filename.

Definition get_artifact (session_id turn_id filename : string)
    : M FileResponse.t :=
  let artifact_path := artifact_path session_id turn_id filename in
  ex <- call (call_exists artifact_path)
             (fun w => (Ok (os_path_exists artifact_path w), w)) ;;
  if negb ex
  then raise (HTTPException 404 "Artifact not found")
  else ret {| FileResponse.path := artifact_path;
              FileResponse.media_type := "image/png" |}.

(** The Store reads inside the three read handlers (the lines inside
    their [try] up to the repository call), on their own: what the
    handler gets back from the Store for an identifier. *)
Definition session_lookup (session_id : string) : M pyval :=
  handles <- get_db_handles ;;
  coll <- getitem handles "sessions" ;;
  session_repo <- call (call_SessionRepo "sessions") (SessionRepo coll) ;;
  call (call_get_session session_id)
       (SessionRepo_get_session session_repo session_id).

Definition turn_lookup (turn_id : string) : M pyval :=
  handles <- get_db_handles ;;
  coll <- getitem handles "turns" ;;
  turn_repo <- call (call_TurnRepo "turns") (TurnRepo coll) ;;
  call (call_get_turn turn_id) (TurnRepo_get_turn turn_repo turn_id).

Definition turns_lookup (session_id : string) (limit skip : Z)
    : M (list pyval) :=
  handles <- get_db_handles ;;
  coll <- getitem handles "turns" ;;
  turn_repo <- call (call_TurnRepo "turns") (TurnRepo coll) ;;
  cur <- call (call_get_turns_by_session session_id limit skip)
           (TurnRepo_get_turns_by_session turn_repo session_id limit skip) ;;
  call call_list (py_list cur).
End Handlers.

(** ** Paths *)

(** Lexical resolution of a relative POSIX path, as [os.path.normpath]
    does it: empty and [.] components vanish, [..] cancels the component
    before it, and a [..] with nothing left to cancel stays. *)
Fixpoint split_on (c : Ascii.ascii) (s : string) : list string :=
  match s with
  | EmptyString => [EmptyString]
  | String a s' =>
      if Ascii.eqb a c then EmptyString :: split_on c s'
      else match split_on c s' with
           | x :: r => String a x :: r
           | [] => [String a EmptyString]
           end
  end.

(** One component onto the stack of kept components (top first). *)
Definition norm_step (kept : list string) (comp : string) : list string :=
  if String.eqb comp "" || String.eqb comp "." then kept
  else if String.eqb comp ".." then
    match kept with
    | [] => [comp]
    | top :: below => if String.eqb top ".." then comp :: kept else below
    end
  else comp :: kept.

Definition normpath (p : string) : list string :=
  rev (fold_left norm_step (split_on "/"%char p) []).

(** A path is inside the artifact root when, once resolved, it still
    starts in the directory [artifacts]. *)
Definition inside_artifact_root (p : string) : bool :=
  match normpath p with
  | top :: _ => String.eqb top "artifacts"
  | [] => false
  end.

(** ** A reference world

    A concrete implementation of the collaborators: the session and
    turn store and the pipeline runner as the specification describes
    them, a file system given by the paths that exist, and a switch that
    makes the database unreachable. *)
Module Ref.

Record Session : Type := {
  title : string;
  config : pydict;
  created_at : Z;
}.

Record Turn : Type := {
  session_id : string;
  turn_index : Z;
  user_text : string;
  attachments : list pydict;
  ui_context : pydict;
  compliance_result : string;
  summary : option string;
  artifacts : list pydict;
}.

(** What the generation pipeline produces for a request. *)
Record Generated : Type := {
  g_compliance_result : string;
  g_summary : option string;
  g_artifacts : list pydict;
}.

Record world : Type := {
  sessions : gmap string Session;
  turns : gmap string Turn;
  (** resolved paths of the files that exist *)
  files : list (list string);
  (** outcome of the generation pipeline on a request *)
  pipeline : RunTurn.args -> pyres Generated;
  (** the error message of every database operation, when unreachable *)
  db_fault : option string;
  settings : Settings;
  now : Z;
}.

Inductive coll : Type := Sessions | Turns.

Definition session_doc (id : string) (s : Session) : pyval :=
  PDict [("_id", PStr id); ("title", PStr (title s));
         ("config", PDict (config s)); ("created_at", PInt (created_at s))].

Definition opt_str (o : option string) : pyval :=
  match o with Some s => PStr s | None => PNone end.

Definition turn_doc (id : string) (t : Turn) : pyval :=
  PDict [("_id", PStr id); ("session_id", PStr (session_id t));
         ("turn_index", PInt (turn_index t));
         ("user_text", PStr (user_text t));
         ("attachments", PList (PDict <$> attachments t));
         ("ui_context", PDict (ui_context t));
         ("compliance_result", PStr (compliance_result t));
         ("summary", opt_str (summary t));
         ("artifacts", PList (PDict <$> artifacts t))].

Definition set_sessions (m : gmap string Session) (w : world) : world :=
  {| sessions := m; turns := turns w; files := files w;
     pipeline := pipeline w; db_fault := db_fault w;
     settings := settings w; now := now w |}.

Definition set_turns (m : gmap string Turn) (w : world) : world :=
  {| sessions := sessions w; turns := m; files := files w;
     pipeline := pipeline w; db_fault := db_fault w;
     settings := settings w; now := now w |}.

(** A database operation: it raises when the database is unreachable. *)
Definition db {A} (f : world -> pyres A * world) (w : world)
    : pyres A * world :=
  match db_fault w with
  | Some m => (Raise (PyException "ServerSelectionTimeoutError" m), w)
  | None => f w
  end.

(** Modelled from the spec: the Store's [GetSession(id)] behind
    [SessionRepo.get_session] ([src/db/repositories.py] is missing); a
    read returns a not-found signal, not an exception, when the record is
    absent. *)
Definition get_session (id : string) (w : world) : pyval :=
  match sessions w !! id with
  | Some s => session_doc id s
  | None => PNone
  end.

(** Modelled from the spec: the Store's [GetTurn(id)] behind
    [TurnRepo.get_turn] ([src/db/repositories.py] is missing), with the
    same not-found signal. *)
Definition get_turn (id : string) (w : world) : pyval :=
  match turns w !! id with
  | Some t => turn_doc id t
  | None => PNone
  end.

Definition by_index (x y : string * Turn) : Prop :=
  turn_index x.2 <= turn_index y.2.

#[export] Instance by_index_dec : RelDecision by_index :=
  fun x y => decide (turn_index x.2 <= turn_index y.2).

(** The turns of a session, by turn index ascending. *)
Definition turns_of (sid : string) (w : world) : list (string * Turn) :=
  merge_sort by_index
    (filter (fun x => session_id x.2 = sid) (map_to_list (turns w))).

(** Modelled from the spec: the Store's [ListTurnsBySession(id, limit,
    skip)] behind [TurnRepo.get_turns_by_session]
    ([src/db/repositories.py] is missing): pagination by offset over the
    session's turns in turn-index order, empty when the session has no
    turns or does not exist. *)
Definition get_turns_by_session (sid : string) (limit skip : Z)
    (w : world) : list pyval :=
  (fun x => turn_doc x.1 x.2) <$>
    take (Z.to_nat limit) (drop (Z.to_nat skip) (turns_of sid w)).

(** Modelled from the spec: the Store's [CreateSession], a single-record
    insert under a new identifier. *)
Definition create_session (s : Session) (w : world) : string * world :=
  let id := fresh (dom (sessions w)) in
  (id, set_sessions (<[id := s]> (sessions w)) w).

(** Modelled from the spec: the Store's [CreateTurn], a single-record
    insert under a new identifier. *)
Definition create_turn (t : Turn) (w : world) : string * world :=
  let id := fresh (dom (turns w)) in
  (id, set_turns (<[id := t]> (turns w)) w).

(** Modelled from the spec: the session a turn is filed under, for
    [run_turn] ([src/api_stub/runner.py] is missing): the session named
    by the request, or, with no session id, a new session that takes
    [title_if_new] and the session configuration. *)
Definition target_session (a : RunTurn.args) (w : world) : string * world :=
  match RunTurn.session_id a with
  | Some sid => (sid, w)
  | None =>
      create_session {| title := RunTurn.title_if_new a;
                        config := RunTurn.session_config_if_new a;
                        created_at := now w |} w
  end.

(** Modelled from the spec: the Pipeline Runner's [run_turn]
    ([src/api_stub/runner.py] is missing).  It runs the generation; if
    that raises, nothing is persisted.  Otherwise a missing session id
    creates a new session with [title_if_new] and the session
    configuration, and exactly one turn is committed, with the next turn
    index of its session (from 0).  The result carries session id, turn
    id, turn index, compliance result, optional summary and artifact
    list. *)
Definition run_turn (a : RunTurn.args) (w : world) : pyres pyval * world :=
  match pipeline w a with
  | Raise e => (Raise e, w)
  | Ok g =>
      let (sid, w1) := target_session a w in
      let idx := Z.of_nat (length (turns_of sid w1)) in
      let (tid, w2) :=
        create_turn {| session_id := sid; turn_index := idx;
                       user_text := RunTurn.user_text a;
                       attachments := RunTurn.attachments a;
                       ui_context := RunTurn.ui_context a;
                       compliance_result := g_compliance_result g;
                       summary := g_summary g;
                       artifacts := g_artifacts g |} w1 in
      (Ok (PDict [("session_id", PStr sid); ("turn_id", PStr tid);
                  ("turn_index", PInt idx);
                  ("compliance_result", PStr (g_compliance_result g));
                  ("summary", opt_str (g_summary g));
                  ("artifacts", PList (PDict <$> g_artifacts g))]), w2)
  end.

Definition item (k : string) (d : pydict) : option pyval :=
  snd <$> List.find (fun p => String.eqb (fst p) k) d.

Fixpoint dicts (l : list pyval) : option (list pydict) :=
  match l with
  | [] => Some []
  | PDict d :: r => (fun ds => d :: ds) <$> dicts r
  | _ :: _ => None
  end.

Definition invalid {A} : pyres A :=
  Raise (PyException "ValidationError" "validation error for TurnResponse").

(** [TurnResponse( **result )] without coercion: the four required
    fields at their declared types, [summary] absent, null or a string,
    [artifacts] absent or a list of dicts; other keys are ignored. *)
Definition TurnResponse_init (result : pyval) : pyres TurnResponse.t :=
  match result with
  | PDict d =>
      match item "session_id" d, item "turn_id" d,
            item "turn_index" d, item "compliance_result" d with
      | Some (PStr sid), Some (PStr tid), Some (PInt i), Some (PStr c) =>
          let sm := match item "summary" d with
                    | None | Some PNone => Some None
                    | Some (PStr s) => Some (Some s)
                    | Some _ => None
                    end in
          let ar := match item "artifacts" d with
                    | None => Some []
                    | Some (PList l) => dicts l
                    | Some _ => None
                    end in
          match sm, ar with
          | Some sm, Some ar =>
              Ok {| TurnResponse.session_id := sid;
                    TurnResponse.turn_id := tid;
                    TurnResponse.turn_index := i;
                    TurnResponse.compliance_result := c;
                    TurnResponse.summary := sm;
                    TurnResponse.artifacts := ar |}
          | _, _ => invalid
          end
      | _, _, _, _ => invalid
      end
  | _ => Raise (PyException "TypeError" "argument after ** must be a mapping")
  end.

Definition exists_ (p : string) (w : world) : bool :=
  bool_decide (normpath p ∈ files w).

Definition find_one (c : coll) (filter : pydict) (w : world) : pyval :=
  match item "_id" filter with
  | Some (PStr id) =>
      match c with
      | Sessions => get_session id w
      | Turns => get_turn id w
      end
  | _ => PNone
  end.

Definition pure {A} (a : A) (w : world) : pyres A * world := (Ok a, w).

(** A pipeline that passes every request. *)
Definition passing : RunTurn.args -> pyres Generated :=
  fun _ => Ok {| g_compliance_result := "pass"; g_summary := None;
                 g_artifacts := [] |}.

(** A pipeline that fails on every request. *)
Definition failing (msg : string) : RunTurn.args -> pyres Generated :=
  fun _ => Raise (PyException "RuntimeError" msg).

Definition empty (p : RunTurn.args -> pyres Generated) : world :=
  {| sessions := ∅; turns := ∅; files := []; pipeline := p;
     db_fault := None;
     settings := {| mongo_uri := "mongodb://localhost:27017";
                    mongo_db := "creative" |};
     now := 0 |}.

(** The same world with the database unreachable. *)
Definition unreachable (msg : string) (w : world) : world :=
  {| sessions := sessions w; turns := turns w; files := files w;
     pipeline := pipeline w; db_fault := Some msg;
     settings := settings w; now := now w |}.

(** The same world with one more file. *)
Definition with_file (p : list string) (w : world) : world :=
  {| sessions := sessions w; turns := turns w; files := p :: files w;
     pipeline := pipeline w; db_fault := db_fault w;
     settings := settings w; now := now w |}.

End Ref.

(** The reference world as an implementation of the interface. *)
#[export] Instance ref_collaborators : Collaborators := {|
  World := Ref.world;
  Collection := Ref.coll;
  SessionRepoT := Ref.coll;
  TurnRepoT := Ref.coll;
  Cursor := list pyval;
  str_HTTPException c d := pretty c +:+ ": " +:+ d;
  load_settings w := (Ok (Ref.settings w), w);
  connect_mongo uri name :=
    Ref.db (Ref.pure ({[ "sessions" := Ref.Sessions; "turns" := Ref.Turns ]}
                    : gmap string Ref.coll));
  find_one c f := Ref.db (fun w => Ref.pure (Ref.find_one c f w) w);
  SessionRepo c := Ref.pure c;
  TurnRepo c := Ref.pure c;
  SessionRepo_get_session _ id := Ref.db (fun w => Ref.pure (Ref.get_session id w) w);
  TurnRepo_get_turn _ id := Ref.db (fun w => Ref.pure (Ref.get_turn id w) w);
  TurnRepo_get_turns_by_session _ sid limit skip :=
    Ref.db (fun w => Ref.pure (Ref.get_turns_by_session sid limit skip w) w);
  py_list cur := Ref.pure cur;
  run_turn a := Ref.db (Ref.run_turn a);
  TurnResponse_init := Ref.TurnResponse_init;
  os_path_exists := Ref.exists_;
|}.

(** ** Sample requests and worlds *)

(** The body [{"user_text": "make a banner"}], and the same body with
    one more key. *)
Definition banner : TurnRequest.body :=
  TurnRequest.mk_body "make a banner" Omitted Omitted Omitted Omitted Omitted.

Definition banner_titled (title : string) : TurnRequest.body :=
  TurnRequest.mk_body "make a banner" Omitted Omitted Omitted (Given title)
    Omitted.

Definition banner_null_attachments : TurnRequest.body :=
  TurnRequest.mk_body "make a banner" Omitted Null Omitted Omitted Omitted.

(** A fresh process over an empty store whose pipeline passes. *)
Definition quiet : St := boot (Ref.empty Ref.passing).

(** A fresh process over an empty store whose pipeline fails. *)
Definition broken : St := boot (Ref.empty (Ref.failing "quota exceeded")).

(** A fresh process that cannot reach its database. *)
Definition offline : St :=
  boot (Ref.unreachable "connection refused" (Ref.empty Ref.passing)).

(** ** The rest of the facade *)

Section Banner.
Context `{C : Collaborators}.

(** [GET /]: the service banner. *)
Definition root : M pyval :=
  ret (PDict [("message", PStr "Tesco Creative Builder API");
              ("version", PStr "1.0.0");
              ("docs", PStr "/api/docs");
              ("health", PStr "/api/health")]).

(** The probe inside [health_check]'s [try], on its own: the handles,
    the [sessions] collection, one [find_one]. *)
Definition health_probe : M pyval :=
  handles <- get_db_handles ;;
  sessions <- getitem handles "sessions" ;;
  call (call_find_one "sessions" [("_id", PStr "health_check")])
       (find_one sessions [("_id", PStr "health_check")]).
End Banner.

(** The two calls that open the database connection. *)
Definition is_connect (c : Call) : bool :=
  match c with
  | call_load_settings | call_connect_mongo _ _ => true
  | _ => false
  end.

(** A path segment without a slash, and one that is moreover a name:
    not empty, not [.] and not [..]. *)
Fixpoint no_slash (s : string) : bool :=
  match s with
  | EmptyString => true
  | String a s' => negb (Ascii.eqb a "/"%char) && no_slash s'
  end.

Definition plain_segment (s : string) : bool :=
  no_slash s && negb (String.eqb s "") && negb (String.eqb s ".")
  && negb (String.eqb s "..").

(** The reference world with another pipeline runner in place of
    [Ref.run_turn]. *)
Definition ref_with_runner
    (runner : RunTurn.args -> Ref.world -> pyres pyval * Ref.world)
    : Collaborators := {|
  World := Ref.world;
  Collection := Ref.coll;
  SessionRepoT := Ref.coll;
  TurnRepoT := Ref.coll;
  Cursor := list pyval;
  str_HTTPException c d := pretty c +:+ ": " +:+ d;
  load_settings w := (Ok (Ref.settings w), w);
  connect_mongo uri name :=
    Ref.db (Ref.pure ({[ "sessions" := Ref.Sessions; "turns" := Ref.Turns ]}
                    : gmap string Ref.coll));
  find_one c f := Ref.db (fun w => Ref.pure (Ref.find_one c f w) w);
  SessionRepo c := Ref.pure c;
  TurnRepo c := Ref.pure c;
  SessionRepo_get_session _ id :=
    Ref.db (fun w => Ref.pure (Ref.get_session id w) w);
  TurnRepo_get_turn _ id := Ref.db (fun w => Ref.pure (Ref.get_turn id w) w);
  TurnRepo_get_turns_by_session _ sid limit skip :=
    Ref.db (fun w => Ref.pure (Ref.get_turns_by_session sid limit skip w) w);
  py_list cur := Ref.pure cur;
  run_turn := runner;
  TurnResponse_init := Ref.TurnResponse_init;
  os_path_exists := Ref.exists_;
|}.

(** A runner that commits the turn and then returns a result without
    [turn_id], [turn_index] and [compliance_result]. *)
Definition terse_runner (a : RunTurn.args) (w : Ref.world)
    : pyres pyval * Ref.world :=
  match Ref.run_turn a w with
  | (Ok _, w') => (Ok (PDict [("session_id", PStr "0")]), w')
  | (Raise e, w') => (Raise e, w')
  end.

(** The process [quiet] after one banner request. *)
Definition warm : St := snd (create_turn (TurnRequest.of_body banner) quiet).

(** The process [quiet] after one health check. *)
Definition connected : St := snd (health_check quiet).

(** A process whose handles hold no collection at all. *)
Definition bare : St :=
  {| _settings := None; _handles := Some ∅;
     world := Ref.empty Ref.passing; calls := [] |}.

(** ** Sending a file *)

(** What [os.stat] finds at a path. *)
Inductive entry : Type :=
| NoEntry
| Directory
| RegularFile (content : list Byte.byte).

(** The file system behind [os.path.exists], which is [os.stat] with
    its failure turned into [False]. *)
Class FileSystem `{C : Collaborators} : Type := {
  os_stat : string -> World -> entry;
  exists_is_stat : forall (p : string) (w : World),
    os_path_exists p w =
    match os_stat p w with NoEntry => false | _ => true end;
}.

Section Serving.
Context `{F : FileSystem}.

(** What the framework does with a returned [FileResponse] when it
    sends it: it stats the path, raises [RuntimeError] when nothing is
    there or when what is there is not a regular file, and otherwise
    sends the file's bytes under the response's media type. *)
Definition send_file (r : FileResponse.t) (w : World)
    : pyres (list Byte.byte * string) :=
  match os_stat (FileResponse.path r) w with
  | NoEntry =>
      Raise (PyException "RuntimeError"
               ("File at path " +:+ FileResponse.path r
                +:+ " does not exist."))
  | Directory =>
      Raise (PyException "RuntimeError"
               ("File at path " +:+ FileResponse.path r
                +:+ " is not a file."))
  | RegularFile content => Ok (content, FileResponse.media_type r)
  end.

(** [GET /api/v1/artifacts/{session_id}/{turn_id}/{filename}] from the
    request to the bytes on the wire: the handler, then the sending of
    what it returned. *)
Definition serve_artifact (session_id turn_id filename : string)
    : M (list Byte.byte * string) :=
  r <- get_artifact session_id turn_id filename ;;
  fun s => (send_file r (world s), s).
End Serving.

(** The collaborators [C] with another [os.path.exists]. *)
Definition with_os_path_exists (C : Collaborators)
    (ex : string -> @World C -> bool) : Collaborators := {|
  World := @World C;
  Collection := @Collection C;
  SessionRepoT := @SessionRepoT C;
  TurnRepoT := @TurnRepoT C;
  Cursor := @Cursor C;
  str_HTTPException := @str_HTTPException C;
  load_settings := @load_settings C;
  connect_mongo := @connect_mongo C;
  find_one := @find_one C;
  SessionRepo := @SessionRepo C;
  TurnRepo := @TurnRepo C;
  SessionRepo_get_session := @SessionRepo_get_session C;
  TurnRepo_get_turn := @TurnRepo_get_turn C;
  TurnRepo_get_turns_by_session := @TurnRepo_get_turns_by_session C;
  py_list := @py_list C;
  run_turn := @run_turn C;
  TurnResponse_init := @TurnResponse_init C;
  os_path_exists := ex;
|}.

(** A file system with directories over the reference world: the paths
    of [Ref.files] are regular files, and every path that one of them
    lies below is a directory. *)
Module Disk.

(** The eight bytes every PNG file starts with; the sample files hold
    nothing else. *)
Definition png : list Byte.byte :=
  [Byte.x89; Byte.x50; Byte.x4e; Byte.x47;
   Byte.x0d; Byte.x0a; Byte.x1a; Byte.x0a].

(** The file [f] lies below the directory [d]. *)
Fixpoint below (d f : list string) : bool :=
  match d, f with
  | [], _ :: _ => true
  | x :: d', y :: f' => String.eqb x y && below d' f'
  | _, [] => false
  end.

Definition stat (p : string) (w : Ref.world) : entry :=
  let q := normpath p in
  if bool_decide (q ∈ Ref.files w) then RegularFile png
  else if existsb (below q) (Ref.files w) then Directory
  else NoEntry.

Definition exists_ (p : string) (w : Ref.world) : bool :=
  match stat p w with NoEntry => false | _ => true end.

(** One artifact on disk: [artifacts/s1/t1/banner.png]. *)
Definition studio : Ref.world :=
  Ref.with_file ["artifacts"; "s1"; "t1"; "banner.png"]
    (Ref.empty Ref.passing).

End Disk.

Definition disk_collaborators : Collaborators :=
  with_os_path_exists ref_collaborators Disk.exists_.

#[export] Instance disk_fs : @FileSystem disk_collaborators :=
  @Build_FileSystem disk_collaborators Disk.stat
    (fun p w => eq_refl (Disk.exists_ p w)).

(** * Properties *)

(** ** The handlers, over any collaborators *)

Section HandlerFacts.
Context `{C : Collaborators}.

Lemma call_run (A : Type) (c : Call) (f : World -> pyres A * World)
    (s : St) (r : pyres A) (w : World) :
  f (world s) = (r, w) ->
  call c f s = (r, {| _settings := _settings s; _handles := _handles s;
                      world := w; calls := (calls s ++ [c])%list |}).
Proof. intros H. unfold call. rewrite H. reflexivity. Qed.

(** C4. [health_check] never raises: whatever the state of the process
    and whatever the collaborators do (the connection or the probing
    read may raise), it returns a response, and the response's
    [database] field is ["connected"] or ["error: "] followed by the
    text of the exception. *)
Theorem health_check_never_raises (s : St) :
  exists (r : HealthResponse.t) (s' : St),
    health_check s = (Ok r, s') /\
    (HealthResponse.database r = "connected" \/
     exists e : exn, HealthResponse.database r = "error: " +:+ py_str e).
Proof.
  unfold health_check, bind at 1, try_except.
  match goal with
  | |- context [match ?b s with (_, _) => _ end] =>
      destruct (b s) as [[a | e] s1] eqn:E
  end.
  - unfold ret. do 2 eexists. split; [reflexivity |]. simpl.
    left.
    unfold bind, ret in E.
    repeat match type of E with
           | context [match ?m ?x with (_, _) => _ end] =>
               destruct (m x) as [[? | ?] ?]; try discriminate
           end.
    congruence.
  - unfold ret. do 2 eexists. split; [reflexivity |]. simpl.
    right. exists e. reflexivity.
Qed.

(** C10. Every [health_check] response has [status] ["healthy"] and
    [version] ["1.0.0"], also when the database probe fails; only the
    [database] field is left to vary. *)
Theorem health_check_status_version (s : St) :
  exists (db : string) (s' : St),
    health_check s =
    (Ok {| HealthResponse.status := "healthy";
           HealthResponse.version := "1.0.0";
           HealthResponse.database := db |}, s').
Proof.
  unfold health_check, bind at 1, try_except.
  match goal with
  | |- context [match ?b s with (_, _) => _ end] =>
      destruct (b s) as [[a | e] s1]
  end; unfold ret; do 2 eexists; reflexivity.
Qed.

(** C1. When [run_turn] raises, whatever the exception, [create_turn]
    raises an [HTTPException] with status 500 whose detail is the fixed
    prefix followed by [str(e)] unchanged; [run_turn] was called once,
    with the request's arguments, and nothing else was called: there is
    no second attempt. *)
Theorem create_turn_runner_error (request : TurnRequest.t) (s : St)
    (e : exn) (w' : World)
    (H : run_turn (run_turn_args request) (world s) = (Raise e, w')) :
  fst (create_turn request s) =
    Raise (HTTPException 500 ("Turn generation failed: " +:+ py_str e)) /\
  http_status (fst (create_turn request s)) = 500 /\
  calls (snd (create_turn request s)) =
    (calls s ++ [call_run_turn (run_turn_args request)])%list /\
  world (snd (create_turn request s)) = w'.
Proof.
  unfold create_turn, try_except, bind.
  rewrite (call_run _ _ _ _ _ _ H). simpl. auto.
Qed.

Lemma create_turn_calls (request : TurnRequest.t) (s : St) :
  calls (snd (create_turn request s)) =
  (calls s ++ [call_run_turn (run_turn_args request)])%list.
Proof.
  unfold create_turn, try_except, bind, call, raise.
  destruct (run_turn _ (world s)) as [[result | e] w]; simpl; [| reflexivity].
  destruct (TurnResponse_init result); reflexivity.
Qed.

Lemma create_turn_world (request : TurnRequest.t) (s : St) :
  world (snd (create_turn request s)) =
  snd (run_turn (run_turn_args request) (world s)).
Proof.
  unfold create_turn, try_except, bind, call, raise.
  destruct (run_turn _ (world s)) as [[result | e] w]; simpl; [| reflexivity].
  destruct (TurnResponse_init result); reflexivity.
Qed.

Lemma create_turn_result (request : TurnRequest.t) (s : St) :
  fst (create_turn request s) =
  match fst (run_turn (run_turn_args request) (world s)) with
  | Ok result =>
      match TurnResponse_init result with
      | Ok r => Ok r
      | Raise e =>
          Raise (HTTPException 500
                   ("Turn generation failed: " +:+ py_str e))
      end
  | Raise e =>
      Raise (HTTPException 500 ("Turn generation failed: " +:+ py_str e))
  end.
Proof.
  unfold create_turn, try_except, bind, call, raise.
  destruct (run_turn _ (world s)) as [[result | e] w]; simpl; [| reflexivity].
  destruct (TurnResponse_init result); reflexivity.
Qed.

(** Splits on the outcome of every collaborator call in the goal. *)
Ltac run_calls :=
  repeat (simpl;
          match goal with
          | |- context [truthy ?v] => is_var v; destruct (truthy v)
          | |- context [match ?m ?x with (_, _) => _ end] =>
              destruct (m x) as [[? | []] ?]
          end).

(** What each read handler makes of the Store's answer. *)
Lemma get_session_of_lookup (session_id : string) (s : St) :
  fst (get_session session_id s) =
  match fst (session_lookup session_id s) with
  | Ok v => if truthy v then Ok v
            else Raise (HTTPException 404 "Session not found")
  | Raise (HTTPException c d) => Raise (HTTPException c d)
  | Raise (PyException _ m) => Raise (HTTPException 500 m)
  end.
Proof.
  unfold get_session, session_lookup, try_except, call, bind.
  run_calls; reflexivity.
Qed.

Lemma get_turn_of_lookup (turn_id : string) (s : St) :
  fst (get_turn turn_id s) =
  match fst (turn_lookup turn_id s) with
  | Ok v => if truthy v then Ok v
            else Raise (HTTPException 404 "Turn not found")
  | Raise (HTTPException c d) => Raise (HTTPException c d)
  | Raise (PyException _ m) => Raise (HTTPException 500 m)
  end.
Proof.
  unfold get_turn, turn_lookup, try_except, call, bind.
  run_calls; reflexivity.
Qed.

Lemma get_session_turns_of_lookup (session_id : string)
    (limit skip : option Z) (s : St) :
  fst (get_session_turns session_id limit skip s) =
  match fst (turns_lookup session_id (default 50 limit) (default 0 skip) s)
  with
  | Ok turns =>
      Ok (PDict [("session_id", PStr session_id);
                 ("count", PInt (Z.of_nat (length turns)));
                 ("turns", PList turns)])
  | Raise e => Raise (HTTPException 500 (py_str e))
  end.
Proof.
  unfold get_session_turns, turns_lookup, try_except, call, bind.
  run_calls; reflexivity.
Qed.

(** The repository call a successful listing has made. *)
Lemma turns_lookup_calls (session_id : string) (limit skip : Z) (s : St)
    (turns : list pyval) :
  fst (turns_lookup session_id limit skip s) = Ok turns ->
  In (call_get_turns_by_session session_id limit skip)
     (calls (snd (turns_lookup session_id limit skip s))).
Proof.
  unfold turns_lookup, call, bind.
  run_calls; try discriminate.
  intros _. cbn [snd calls]. rewrite !in_app_iff. simpl. auto.
Qed.

Lemma get_session_turns_calls (session_id : string)
    (limit skip : option Z) (s : St) :
  calls (snd (get_session_turns session_id limit skip s)) =
  calls (snd (turns_lookup session_id (default 50 limit) (default 0 skip) s)).
Proof.
  unfold get_session_turns, turns_lookup, try_except, call, bind.
  run_calls; reflexivity.
Qed.

(** C2. When the Store's answer for a session id is the not-found
    signal (a falsy value such as [None], returned rather than raised),
    [get_session] raises the 404 [HTTPException], and likewise
    [get_turn] for a turn id: the status is 404, not 500. *)
Theorem absent_reads_not_found (session_id turn_id : string) (s1 s2 : St)
    (v1 v2 : pyval)
    (Hs : fst (session_lookup session_id s1) = Ok v1)
    (Hv1 : truthy v1 = false)
    (Ht : fst (turn_lookup turn_id s2) = Ok v2)
    (Hv2 : truthy v2 = false) :
  (fst (get_session session_id s1) =
     Raise (HTTPException 404 "Session not found") /\
   http_status (fst (get_session session_id s1)) = 404) /\
  (fst (get_turn turn_id s2) = Raise (HTTPException 404 "Turn not found") /\
   http_status (fst (get_turn turn_id s2)) = 404).
Proof.
  rewrite get_session_of_lookup, get_turn_of_lookup, Hs, Ht, Hv1, Hv2.
  simpl. auto.
Qed.

(** C5. [limit] and [skip] default to 50 and 0: a call without them is
    the call with 50 and 0, and the repository is asked with those
    values.  When the Store's answer for the session is the empty
    sequence, the handler returns the session id with [count] 0 and
    [turns] [[]], not an error. *)
Theorem get_session_turns_empty (session_id : string)
    (limit skip : option Z) (s : St)
    (H : fst (turns_lookup session_id (default 50 limit) (default 0 skip) s)
         = Ok []) :
  (get_session_turns session_id None None s =
     get_session_turns session_id (Some 50) (Some 0) s) /\
  (fst (get_session_turns session_id limit skip s) =
     Ok (PDict [("session_id", PStr session_id); ("count", PInt 0);
                ("turns", PList [])])) /\
  In (call_get_turns_by_session session_id (default 50 limit)
        (default 0 skip))
     (calls (snd (get_session_turns session_id limit skip s))).
Proof.
  split; [reflexivity |].
  rewrite get_session_turns_of_lookup, get_session_turns_calls, H.
  split; [reflexivity |].
  exact (turns_lookup_calls _ _ _ _ _ H).
Qed.

(** C8, as the code has it.  Every non-null [attachments], [ui_context]
    and [session_config] a client supplies reaches [run_turn] unchanged;
    a field that is omitted or null reaches it as the empty list or the
    empty dict. *)
Theorem create_turn_forwards_payloads (b : TurnRequest.body) (s : St) :
  exists a : RunTurn.args,
    calls (snd (create_turn (TurnRequest.of_body b) s)) =
      (calls s ++ [call_run_turn a])%list /\
    RunTurn.attachments a =
      match TurnRequest.b_attachments b with Given v => v | _ => [] end /\
    RunTurn.ui_context a =
      match TurnRequest.b_ui_context b with Given v => v | _ => [] end /\
    RunTurn.session_config_if_new a =
      match TurnRequest.b_session_config b with Given v => v | _ => [] end.
Proof.
  exists (run_turn_args (TurnRequest.of_body b)).
  split; [apply create_turn_calls |].
  destruct b as [ut sid att ui ti sc]. simpl.
  repeat split.
  - destruct att as [| | []]; reflexivity.
  - destruct ui as [| | []]; reflexivity.
  - destruct sc as [| | []]; reflexivity.
Qed.

End HandlerFacts.

(** ** The handlers over the reference world *)

Lemma dicts_PDict (l : list pydict) : Ref.dicts (PDict <$> l) = Some l.
Proof.
  induction l as [| d l IH]; [reflexivity |].
  change (PDict <$> d :: l) with (PDict d :: (PDict <$> l)).
  cbn [Ref.dicts]. rewrite IH. reflexivity.
Qed.

Lemma fresh_session (w : Ref.world) :
  Ref.sessions w !! fresh (dom (Ref.sessions w)) = None.
Proof. apply not_elem_of_dom, is_fresh. Qed.

Lemma fresh_turn (w : Ref.world) :
  Ref.turns w !! fresh (dom (Ref.turns w)) = None.
Proof. apply not_elem_of_dom, is_fresh. Qed.

Lemma run_turn_ok (a : RunTurn.args) (w : Ref.world) (g : Ref.Generated) :
  Ref.pipeline w a = Ok g ->
  exists (tid : string) (t : Ref.Turn) (r : TurnResponse.t) (result : pyval),
    Ref.run_turn a w =
      (Ok result,
       Ref.set_turns (<[tid := t]> (Ref.turns w)) (Ref.target_session a w).2) /\
    Ref.turns w !! tid = None /\
    Ref.TurnResponse_init result = Ok r /\
    TurnResponse.session_id r = (Ref.target_session a w).1 /\
    TurnResponse.turn_id r = tid.
Proof.
  intros Hg. unfold Ref.run_turn. rewrite Hg.
  destruct (Ref.target_session a w) as [sid w1] eqn:Et.
  assert (Hturns : Ref.turns w1 = Ref.turns w).
  { unfold Ref.target_session in Et.
    destruct (RunTurn.session_id a); injection Et as <- <-; reflexivity. }
  unfold Ref.create_turn. cbv zeta. rewrite Hturns.
  destruct (Ref.g_summary g) as [sm |] eqn:Esm.
  all: do 4 eexists; (split; [reflexivity |]).
  all: split; [apply fresh_turn |].
  all: unfold Ref.TurnResponse_init, Ref.item.
  all: cbn [List.find fst snd String.eqb Ascii.eqb Bool.eqb fmap option_fmap
       option_map].
  all: rewrite dicts_PDict; cbn [Ref.opt_str].
  all: split; [reflexivity | split; reflexivity].
Qed.

Lemma ref_create_turn_result (request : TurnRequest.t) (s : St) :
  fst (create_turn request s) =
  match fst (Ref.db (Ref.run_turn (run_turn_args request)) (world s)) with
  | Ok result =>
      match Ref.TurnResponse_init result with
      | Ok r => Ok r
      | Raise e =>
          Raise (HTTPException 500
                   ("Turn generation failed: " +:+ py_str e))
      end
  | Raise e =>
      Raise (HTTPException 500 ("Turn generation failed: " +:+ py_str e))
  end.
Proof. exact (create_turn_result request s). Qed.

Lemma ref_create_turn_world (request : TurnRequest.t) (s : St) :
  world (snd (create_turn request s)) =
  snd (Ref.db (Ref.run_turn (run_turn_args request)) (world s)).
Proof. exact (create_turn_world request s). Qed.

Lemma target_session_sessions (a : RunTurn.args) (w : Ref.world) :
  Ref.sessions (Ref.target_session a w).2 = Ref.sessions w \/
  exists (sid : string) (ss : Ref.Session),
    Ref.sessions w !! sid = None /\
    Ref.sessions (Ref.target_session a w).2 = <[sid := ss]> (Ref.sessions w).
Proof.
  unfold Ref.target_session.
  destruct (RunTurn.session_id a); [left; reflexivity |].
  right. do 2 eexists. split; [apply fresh_session | reflexivity].
Qed.

(** C7. Over the Store and runner of the specification: a
    [create_turn] request fails exactly when the database is
    unreachable or the generation raises, and then it answers 500 and
    the world after it, sessions and turns included, is the world before
    it.  A request that succeeds leaves the turns with exactly one new
    record, the one whose id it returns, and the sessions unchanged or
    with exactly one new record. *)
Theorem create_turn_all_or_nothing (request : TurnRequest.t) (s : St) :
  let out := create_turn request s in
  let w : Ref.world := world s in
  let w' : Ref.world := world (snd out) in
  is_ok (fst out) =
    match Ref.db_fault w with
    | Some _ => false
    | None => is_ok (Ref.pipeline w (run_turn_args request))
    end /\
  match fst out with
  | Raise e => http_status (fst out) = 500 /\ w' = w
  | Ok r =>
      (exists (tid : string) (t : Ref.Turn),
          Ref.turns w !! tid = None /\
          Ref.turns w' = <[tid := t]> (Ref.turns w) /\
          TurnResponse.turn_id r = tid) /\
      size (Ref.turns w') = S (size (Ref.turns w)) /\
      (Ref.sessions w' = Ref.sessions w \/
       exists (sid : string) (ss : Ref.Session),
         Ref.sessions w !! sid = None /\
         Ref.sessions w' = <[sid := ss]> (Ref.sessions w))
  end.
Proof.
  cbv zeta.
  rewrite ref_create_turn_result, ref_create_turn_world.
  unfold Ref.db.
  destruct (Ref.db_fault (world s)) as [m |] eqn:Hdb.
  { simpl. auto. }
  destruct (Ref.pipeline (world s) (run_turn_args request)) as [g | e] eqn:Hg.
  - destruct (run_turn_ok _ _ _ Hg) as (tid & t & r & result & Hrun & Hnew
                                         & Hinit & _ & Htid).
    rewrite Hrun. cbn [fst snd]. rewrite Hinit. cbn [is_ok].
    split; [reflexivity |].
    split; [exists tid, t; auto |].
    split; [cbn [Ref.turns Ref.set_turns]; apply map_size_insert_None, Hnew |].
    apply target_session_sessions.
  - unfold Ref.run_turn. rewrite Hg. simpl. auto.
Qed.

(** C6, as the code has it.  Over the Store and runner of the
    specification: a [create_turn] request without session id whose
    generation succeeds passes to [run_turn], and stores as the title of
    the one session it creates, the supplied [title_if_new] when that is
    a non-empty string, and ["New Session"] when it is omitted, null or
    empty.  The response carries the new session's id. *)
Theorem create_turn_new_session_title (b : TurnRequest.body) (s : St)
    (g : Ref.Generated)
    (Hsid : TurnRequest.session_id (TurnRequest.of_body b) = None)
    (Hdb : Ref.db_fault (world s) = None)
    (Hgen : Ref.pipeline (world s) (run_turn_args (TurnRequest.of_body b))
            = Ok g) :
  let title :=
    match TurnRequest.b_title_if_new b with
    | Given (String c t) => String c t
    | _ => "New Session"
    end in
  let out := create_turn (TurnRequest.of_body b) s in
  let w : Ref.world := world s in
  let w' : Ref.world := world (snd out) in
  (exists a : RunTurn.args,
      calls (snd out) = (calls s ++ [call_run_turn a])%list /\
      RunTurn.title_if_new a = title) /\
  (exists (sid : string) (ss : Ref.Session) (r : TurnResponse.t),
      Ref.sessions w !! sid = None /\
      Ref.sessions w' = <[sid := ss]> (Ref.sessions w) /\
      Ref.title ss = title /\
      fst out = Ok r /\
      TurnResponse.session_id r = sid).
Proof.
  cbv zeta.
  assert (Ht : RunTurn.title_if_new (run_turn_args (TurnRequest.of_body b)) =
               match TurnRequest.b_title_if_new b with
               | Given (String c t) => String c t
               | _ => "New Session"
               end).
  { destruct b as [ut sid att ui ti sc]. simpl.
    destruct ti as [| | []]; reflexivity. }
  split.
  { eexists. split; [apply create_turn_calls | exact Ht]. }
  rewrite ref_create_turn_result, ref_create_turn_world.
  unfold Ref.db. rewrite Hdb.
  destruct (run_turn_ok _ _ _ Hgen) as (tid & t & r & result & Hrun & Hnew
                                         & Hinit & Hrsid & Htid).
  rewrite Hrun. cbn [fst snd]. rewrite Hinit.
  unfold Ref.target_session in *.
  change (RunTurn.session_id (run_turn_args (TurnRequest.of_body b)))
    with (TurnRequest.session_id (TurnRequest.of_body b)) in *.
  rewrite Hsid in *. cbn [Ref.create_session fst snd] in *.
  do 3 eexists.
  split; [apply fresh_session |].
  split; [reflexivity |].
  split; [exact Ht |].
  split; [reflexivity | exact Hrsid].
Qed.

(** C9. [get_artifact] does nothing to its path segments: the one path
    it probes, and serves when something exists there, is the plain
    concatenation ["artifacts/{session_id}/{turn_id}/{filename}"].  Some
    inputs therefore resolve outside the artifact root and are served:
    with [..] as session id, ["artifacts/../src/api.py"] is the file
    [src/api.py]. *)
Theorem get_artifact_unsanitized :
  (forall (C : Collaborators) (session_id turn_id filename : string)
          (s : St),
      let p := "artifacts/" +:+ session_id +:+ "/" +:+ turn_id +:+ "/"
               +:+ filename in
      calls (snd (get_artifact session_id turn_id filename s)) =
        (calls s ++ [call_exists p])%list /\
      (fst (get_artifact session_id turn_id filename s) =
         Ok {| FileResponse.path := p; FileResponse.media_type := "image/png" |}
       \/ fst (get_artifact session_id turn_id filename s) =
         Raise (HTTPException 404 "Artifact not found"))) /\
  (exists (session_id turn_id filename : string) (w : Ref.world)
          (r : FileResponse.t),
      fst (get_artifact session_id turn_id filename (boot w)) = Ok r /\
      inside_artifact_root (FileResponse.path r) = false).
Proof.
  split.
  - intros C sid tid fn s p. subst p.
    unfold get_artifact, artifact_path, bind, call, ret, raise. simpl.
    destruct (os_path_exists _ (world s)); simpl; auto.
  - exists "..", "src", "api.py",
      (Ref.with_file ["src"; "api.py"] (Ref.empty Ref.passing)).
    eexists. split; vm_compute; reflexivity.
Qed.

(** ** The reads over the reference Store *)

Lemma ref_session_lookup (sid : string) (w : Ref.world) :
  Ref.db_fault w = None ->
  fst (session_lookup sid (boot w)) = Ok (Ref.get_session sid w).
Proof.
  intros Hdb. destruct w as [ss ts fs p d st n]. simpl in Hdb. subst d.
  reflexivity.
Qed.

Lemma ref_turn_lookup (tid : string) (w : Ref.world) :
  Ref.db_fault w = None ->
  fst (turn_lookup tid (boot w)) = Ok (Ref.get_turn tid w).
Proof.
  intros Hdb. destruct w as [ss ts fs p d st n]. simpl in Hdb. subst d.
  reflexivity.
Qed.

Lemma ref_turns_lookup (sid : string) (limit skip : Z) (w : Ref.world) :
  Ref.db_fault w = None ->
  fst (turns_lookup sid limit skip (boot w)) =
  Ok (Ref.get_turns_by_session sid limit skip w).
Proof.
  intros Hdb. destruct w as [ss ts fs p d st n]. simpl in Hdb. subst d.
  reflexivity.
Qed.

Lemma filter_none {A} (P : A -> Prop) `{forall x, Decision (P x)}
    (l : list A) :
  (forall x, x ∈ l -> ~ P x) -> filter P l = [].
Proof.
  induction l as [| x l IH]; intros Hl; [reflexivity |].
  rewrite filter_cons_False by (apply Hl; left).
  apply IH. intros y Hy. apply Hl. right. exact Hy.
Qed.

(** A session without turns, or one that does not exist, has an empty
    listing. *)
Lemma ref_no_turns (sid : string) (limit skip : Z) (w : Ref.world) :
  (forall (tid : string) (t : Ref.Turn),
      Ref.turns w !! tid = Some t -> Ref.session_id t <> sid) ->
  Ref.get_turns_by_session sid limit skip w = [].
Proof.
  intros Hnone. unfold Ref.get_turns_by_session, Ref.turns_of.
  assert (Hf : filter (fun x : string * Ref.Turn => Ref.session_id x.2 = sid)
                 (map_to_list (Ref.turns w)) = []).
  { apply filter_none. intros [tid t] Hin.
    apply elem_of_map_to_list in Hin. simpl. exact (Hnone tid t Hin). }
  rewrite Hf. cbn. rewrite drop_nil, take_nil. reflexivity.
Qed.

(** In a fresh process that reaches its database, a session id that is
    not in the Store is answered with 404, and so is a turn id. *)
Lemma ref_get_session_absent (sid : string) (w : Ref.world) :
  Ref.db_fault w = None -> Ref.sessions w !! sid = None ->
  fst (get_session sid (boot w)) =
  Raise (HTTPException 404 "Session not found").
Proof.
  intros Hdb Habs.
  rewrite get_session_of_lookup, (ref_session_lookup _ _ Hdb).
  unfold Ref.get_session. rewrite Habs. reflexivity.
Qed.

Lemma ref_get_turn_absent (tid : string) (w : Ref.world) :
  Ref.db_fault w = None -> Ref.turns w !! tid = None ->
  fst (get_turn tid (boot w)) = Raise (HTTPException 404 "Turn not found").
Proof.
  intros Hdb Habs.
  rewrite get_turn_of_lookup, (ref_turn_lookup _ _ Hdb).
  unfold Ref.get_turn. rewrite Habs. reflexivity.
Qed.

Lemma ref_get_session_turns_none (sid : string) (limit skip : option Z)
    (w : Ref.world) :
  Ref.db_fault w = None ->
  (forall (tid : string) (t : Ref.Turn),
      Ref.turns w !! tid = Some t -> Ref.session_id t <> sid) ->
  fst (get_session_turns sid limit skip (boot w)) =
  Ok (PDict [("session_id", PStr sid); ("count", PInt 0);
             ("turns", PList [])]).
Proof.
  intros Hdb Hnone.
  rewrite get_session_turns_of_lookup, (ref_turns_lookup _ _ _ _ Hdb).
  rewrite (ref_no_turns _ _ _ _ Hnone). reflexivity.
Qed.

(** ** Requests that show the limits of two statements *)

(** C6, as stated, fails: a request without session id whose
    [title_if_new] is the empty string creates a session, and the stored
    title is ["New Session"], not the supplied title. *)
Lemma empty_title_not_stored :
  let request := TurnRequest.of_body (banner_titled "") in
  let out := create_turn request quiet in
  TurnRequest.session_id request = None /\
  TurnRequest.title_if_new request = Some "" /\
  is_ok (fst out) = true /\
  (exists a : RunTurn.args,
      calls (snd out) = [call_run_turn a] /\
      RunTurn.title_if_new a = "New Session") /\
  (exists ss : Ref.Session,
      Ref.sessions (world (snd out)) = {[ "0" := ss ]} /\
      Ref.title ss = "New Session" /\
      Some (Ref.title ss) <> TurnRequest.title_if_new request).
Proof.
  cbv zeta. do 3 (split; [reflexivity |]). split.
  - eexists. split; [vm_compute; reflexivity | reflexivity].
  - eexists. split; [vm_compute; reflexivity |].
    split; [reflexivity | discriminate].
Qed.

(** C8, as stated, fails: a request whose [attachments] is null reaches
    [run_turn] with the empty list in its place. *)
Lemma null_attachments_not_forwarded :
  let request := TurnRequest.of_body banner_null_attachments in
  let out := create_turn request quiet in
  TurnRequest.attachments request = None /\
  exists a : RunTurn.args,
    calls (snd out) = [call_run_turn a] /\
    RunTurn.attachments a = [] /\
    Some (RunTurn.attachments a) <> TurnRequest.attachments request.
Proof.
  cbv zeta. split; [reflexivity |].
  eexists. split; [vm_compute; reflexivity |].
  split; [reflexivity | discriminate].
Qed.

(** ** The statements at sample inputs *)

Lemma create_turn_runner_error_witness :
  run_turn (run_turn_args (TurnRequest.of_body banner)) (world broken) =
    (Raise (PyException "RuntimeError" "quota exceeded"), world broken) /\
  fst (create_turn (TurnRequest.of_body banner) broken) =
    Raise (HTTPException 500 "Turn generation failed: quota exceeded") /\
  calls (snd (create_turn (TurnRequest.of_body banner) broken)) =
    [call_run_turn (run_turn_args (TurnRequest.of_body banner))].
Proof.
  assert (H : run_turn (run_turn_args (TurnRequest.of_body banner))
                (world broken) =
              (Raise (PyException "RuntimeError" "quota exceeded"),
               world broken)) by reflexivity.
  split; [exact H |].
  destruct (create_turn_runner_error _ _ _ _ H) as (H1 & _ & H2 & _).
  split; [exact H1 | exact H2].
Defined.

Lemma absent_reads_not_found_witness :
  fst (session_lookup "s404" quiet) = Ok PNone /\
  fst (turn_lookup "t404" quiet) = Ok PNone /\
  truthy PNone = false /\
  fst (get_session "s404" quiet) =
    Raise (HTTPException 404 "Session not found") /\
  fst (get_turn "t404" quiet) = Raise (HTTPException 404 "Turn not found").
Proof.
  assert (Hs : fst (session_lookup "s404" quiet) = Ok PNone) by reflexivity.
  assert (Ht : fst (turn_lookup "t404" quiet) = Ok PNone) by reflexivity.
  split; [exact Hs |]. split; [exact Ht |]. split; [reflexivity |].
  destruct (absent_reads_not_found "s404" "t404" quiet quiet PNone PNone
              Hs eq_refl Ht eq_refl) as ((H1 & _) & (H2 & _)).
  split; [exact H1 | exact H2].
Defined.

Lemma get_session_turns_empty_witness :
  fst (turns_lookup "s404" 50 0 quiet) = Ok [] /\
  fst (get_session_turns "s404" None None quiet) =
    Ok (PDict [("session_id", PStr "s404"); ("count", PInt 0);
               ("turns", PList [])]).
Proof.
  assert (H : fst (turns_lookup "s404" (default 50 None) (default 0 None)
                     quiet) = Ok []) by reflexivity.
  split; [exact H |].
  destruct (get_session_turns_empty "s404" None None quiet H) as (_ & H1 & _).
  exact H1.
Defined.

Lemma create_turn_new_session_title_witness :
  TurnRequest.session_id (TurnRequest.of_body (banner_titled "Summer sale"))
    = None /\
  Ref.db_fault (world quiet) = None /\
  Ref.pipeline (world quiet)
    (run_turn_args (TurnRequest.of_body (banner_titled "Summer sale"))) =
    Ok {| Ref.g_compliance_result := "pass"; Ref.g_summary := None;
          Ref.g_artifacts := [] |} /\
  exists (sid : string) (ss : Ref.Session),
    Ref.sessions (world (snd (create_turn
       (TurnRequest.of_body (banner_titled "Summer sale")) quiet)))
      = <[sid := ss]> (Ref.sessions (world quiet)) /\
    Ref.title ss = "Summer sale".
Proof.
  do 3 (split; [reflexivity |]).
  destruct (create_turn_new_session_title (banner_titled "Summer sale") quiet
              {| Ref.g_compliance_result := "pass"; Ref.g_summary := None;
                 Ref.g_artifacts := [] |} eq_refl eq_refl eq_refl)
    as (_ & sid & ss & r & _ & Hs & Ht & _).
  exists sid, ss. split; [exact Hs | exact Ht].
Defined.

(** The health probe against a database that cannot be reached, and
    against one that can. *)
Example health_check_offline :
  fst (health_check offline) =
  Ok {| HealthResponse.status := "healthy";
        HealthResponse.version := "1.0.0";
        HealthResponse.database := "error: connection refused" |}.
Proof. reflexivity. Qed.

Example health_check_quiet :
  fst (health_check quiet) =
  Ok {| HealthResponse.status := "healthy";
        HealthResponse.version := "1.0.0";
        HealthResponse.database := "connected" |}.
Proof. reflexivity. Qed.

(** The specification's example: the first turn of a new session. *)
Example create_turn_banner :
  fst (create_turn (TurnRequest.of_body banner) quiet) =
  Ok {| TurnResponse.session_id := "0"; TurnResponse.turn_id := "0";
        TurnResponse.turn_index := 0;
        TurnResponse.compliance_result := "pass";
        TurnResponse.summary := None; TurnResponse.artifacts := [] |}.
Proof. reflexivity. Qed.

(** * Further properties of the facade *)

(** ** The lazily opened connection *)

Section ConnectionFacts.
Context `{C : Collaborators}.

(** X1. Once [get_db_handles] has returned handles, they are cached: the
    global holds them, and the next call returns the same handles
    without calling anything and without changing the process. *)
Theorem get_db_handles_cached (s s' : St) (h : gmap string Collection)
    (H : get_db_handles s = (Ok h, s')) :
  _handles s' = Some h /\ get_db_handles s' = (Ok h, s').
Proof.
  assert (Hh : _handles s' = Some h).
  { unfold get_db_handles in H.
    destruct (_handles s) as [h0 |] eqn:E.
    - unfold ret in H. injection H as <- <-. exact E.
    - unfold bind, call, set_settings, set_handles, ret in H.
      destruct (load_settings (world s)) as [[st | e] w1]; [| discriminate].
      simpl in H.
      destruct (connect_mongo _ _ w1) as [[h1 | e] w2]; [| discriminate].
      injection H as <- <-. reflexivity. }
  split; [exact Hh |].
  unfold get_db_handles. rewrite Hh. reflexivity.
Qed.

(** X2. A failed initialisation is not cached: when [get_db_handles]
    raises, [_handles] is still unset, and the next call starts over
    with [load_settings]. *)
Theorem get_db_handles_failure_not_cached (s : St) (e : exn)
    (H : fst (get_db_handles s) = Raise e) :
  let s' := snd (get_db_handles s) in
  _handles s' = None /\
  exists rest : list Call,
    calls (snd (get_db_handles s')) =
    (calls s' ++ call_load_settings :: rest)%list.
Proof.
  cbv zeta.
  assert (Hn : _handles (snd (get_db_handles s)) = None).
  { unfold get_db_handles in *.
    destruct (_handles s) as [h0 |] eqn:E; [discriminate H |].
    unfold bind, call, set_settings, set_handles, ret in *.
    destruct (load_settings (world s)) as [[st | e1] w1]; simpl in *;
      [| exact E].
    destruct (connect_mongo _ _ w1) as [[h1 | e2] w2]; simpl in *;
      [discriminate H | exact E]. }
  split; [exact Hn |].
  set (s' := snd (get_db_handles s)) in *.
  unfold get_db_handles. rewrite Hn.
  unfold bind, call, set_settings, set_handles, ret.
  destruct (load_settings (world s')) as [[st | e1] w1]; simpl.
  - destruct (connect_mongo _ _ w1) as [[h1 | e2] w2]; simpl;
      rewrite <- app_assoc; eexists; reflexivity.
  - eexists. reflexivity.
Qed.

(** X3. The first use: with [_handles] unset, [get_db_handles] calls
    [load_settings]; if that raises, nothing else is called and the
    globals stay as they were; otherwise it stores the settings, calls
    [connect_mongo] with the settings' [mongo_uri] and [mongo_db], in
    that order, and its outcome is the connection's: the handles are
    stored exactly when the connection returned them. *)
Theorem get_db_handles_first_use (s : St) (Hn : _handles s = None) :
  let out := get_db_handles s in
  match load_settings (world s) with
  | (Raise e, w1) =>
      fst out = Raise e /\
      calls (snd out) = (calls s ++ [call_load_settings])%list /\
      _settings (snd out) = _settings s /\ _handles (snd out) = None /\
      world (snd out) = w1
  | (Ok st, w1) =>
      let conn := connect_mongo (mongo_uri st) (mongo_db st) w1 in
      fst out = fst conn /\
      calls (snd out) =
        (calls s ++ [call_load_settings;
                     call_connect_mongo (mongo_uri st) (mongo_db st)])%list /\
      _settings (snd out) = Some st /\
      _handles (snd out) =
        match fst conn with Ok h => Some h | Raise _ => None end /\
      world (snd out) = snd conn
  end.
Proof.
  cbv zeta. unfold get_db_handles. rewrite Hn.
  unfold bind, call, set_settings, set_handles, ret.
  destruct (load_settings (world s)) as [[st | e] w1]; simpl.
  - destruct (connect_mongo _ _ w1) as [[h1 | e2] w2]; simpl;
      rewrite <- app_assoc; auto.
  - auto.
Qed.

End ConnectionFacts.

(** ** The handlers and the connection *)

Section SharedConnection.
Context `{C : Collaborators}.

Ltac split_calls :=
  repeat (simpl;
          match goal with
          | |- context [truthy ?v] => is_var v; destruct (truthy v)
          | |- context [match ?m ?x with (_, _) => _ end] =>
              destruct (m x) as [[? | []] ?]
          end).

Lemma get_db_handles_warm (s : St) (h : gmap string Collection) :
  _handles s = Some h -> get_db_handles s = (Ok h, s).
Proof. intros H. unfold get_db_handles. rewrite H. reflexivity. Qed.

Lemma get_db_handles_stores (s s' : St) (h : gmap string Collection) :
  get_db_handles s = (Ok h, s') -> _handles s' = Some h.
Proof.
  unfold get_db_handles. destruct (_handles s) as [h0 |] eqn:E.
  - unfold ret. intros H. injection H as <- <-. exact E.
  - unfold bind, call, set_settings, set_handles, ret.
    destruct (load_settings (world s)) as [[st | e] w1]; [| discriminate].
    simpl. destruct (connect_mongo _ _ w1) as [[h1 | e] w2]; [| discriminate].
    intros H. injection H as <- <-. reflexivity.
Qed.

Lemma health_check_of_probe (s : St) :
  health_check s =
  (Ok {| HealthResponse.status := "healthy";
         HealthResponse.version := "1.0.0";
         HealthResponse.database :=
           match fst (health_probe s) with
           | Ok _ => "connected"
           | Raise e => "error: " +:+ py_str e
           end |},
   snd (health_probe s)).
Proof.
  unfold health_check, health_probe, try_except, call, bind, ret.
  destruct (get_db_handles s) as [[h | e] s1]; simpl; [| reflexivity].
  destruct (getitem h "sessions" s1) as [[c | e] s2]; simpl; [| reflexivity].
  destruct (find_one c _ (world s2)) as [[v | e] w]; reflexivity.
Qed.

(** X4. With the connection open, every handler that uses the database
    reuses it: the cached handles and settings stay in place, and
    neither [load_settings] nor [connect_mongo] is called again. *)
Theorem handlers_reuse_connection (s : St) (h : gmap string Collection)
    (session_id turn_id : string) (limit skip : option Z)
    (H : _handles s = Some h) :
  let reused (s' : St) :=
    _handles s' = Some h /\ _settings s' = _settings s /\
    List.filter is_connect (calls s') = List.filter is_connect (calls s) in
  reused (snd (health_check s)) /\
  reused (snd (get_session session_id s)) /\
  reused (snd (get_session_turns session_id limit skip s)) /\
  reused (snd (get_turn turn_id s)).
Proof.
  cbv zeta.
  unfold health_check, get_session, get_session_turns, get_turn,
    try_except, call, bind, reraise_or_500, raise, ret.
  rewrite (get_db_handles_warm s h H). unfold getitem, raise, ret.
  repeat split.
  all: destruct (h !! _); simpl; auto.
  all: split_calls; simpl; rewrite ?List.filter_app; simpl;
    rewrite ?app_nil_r; auto.
Qed.

(** X5. [create_turn] and [get_artifact] never open the database
    connection: whatever the state, they leave [_settings] and
    [_handles] as they were and call neither [load_settings] nor
    [connect_mongo]. *)
Theorem create_turn_get_artifact_never_connect (request : TurnRequest.t)
    (session_id turn_id filename : string) (s : St) :
  let untouched (s' : St) :=
    _handles s' = _handles s /\ _settings s' = _settings s /\
    List.filter is_connect (calls s') = List.filter is_connect (calls s) in
  untouched (snd (create_turn request s)) /\
  untouched (snd (get_artifact session_id turn_id filename s)).
Proof.
  cbv zeta. split.
  - unfold create_turn, try_except, call, bind, raise.
    destruct (run_turn _ (world s)) as [[result | e] w]; simpl.
    + destruct (TurnResponse_init result); simpl;
        rewrite List.filter_app; simpl; rewrite app_nil_r; auto.
    + rewrite List.filter_app; simpl; rewrite app_nil_r; auto.
  - unfold get_artifact, call, bind, raise, ret. simpl.
    destruct (os_path_exists _ (world s)); simpl;
      rewrite List.filter_app; simpl; rewrite app_nil_r; auto.
Qed.

(** X6. No handler lets a raw exception out: whatever the collaborators
    raise, what leaves [health_check], [create_turn], [get_session],
    [get_session_turns] and [get_turn] is a value or an
    [HTTPException]. *)
Theorem handlers_raise_only_http (request : TurnRequest.t)
    (session_id turn_id : string) (limit skip : option Z) (s : St) :
  unhandled (fst (health_check s)) = false /\
  unhandled (fst (create_turn request s)) = false /\
  unhandled (fst (get_session session_id s)) = false /\
  unhandled (fst (get_session_turns session_id limit skip s)) = false /\
  unhandled (fst (get_turn turn_id s)) = false.
Proof.
  repeat split.
  - rewrite health_check_of_probe. reflexivity.
  - rewrite create_turn_result.
    destruct (fst (run_turn _ (world s))) as [result | e]; [| reflexivity].
    destruct (TurnResponse_init result); reflexivity.
  - rewrite get_session_of_lookup.
    destruct (fst (session_lookup session_id s)) as [v | []];
      [destruct (truthy v) | |]; reflexivity.
  - rewrite get_session_turns_of_lookup.
    destruct (fst (turns_lookup _ _ _ s)); reflexivity.
  - rewrite get_turn_of_lookup.
    destruct (fst (turn_lookup turn_id s)) as [v | []];
      [destruct (truthy v) | |]; reflexivity.
Qed.

(** X7. [create_turn] and [get_session_turns] answer 200 or 500 and
    nothing else: their [except] clause wraps every exception, an
    [HTTPException] with another status included, in a 500. *)
Theorem create_turn_get_session_turns_status (request : TurnRequest.t)
    (session_id : string) (limit skip : option Z) (s : St) :
  http_status (fst (create_turn request s)) =
    (if is_ok (fst (create_turn request s)) then 200 else 500) /\
  http_status (fst (get_session_turns session_id limit skip s)) =
    (if is_ok (fst (get_session_turns session_id limit skip s))
     then 200 else 500).
Proof.
  split.
  - rewrite create_turn_result.
    destruct (fst (run_turn _ (world s))) as [result | e]; [| reflexivity].
    destruct (TurnResponse_init result); reflexivity.
  - rewrite get_session_turns_of_lookup.
    destruct (fst (turns_lookup _ _ _ s)); reflexivity.
Qed.

End SharedConnection.

(** ** What the handlers make of the Store's answers *)

Section Outcomes.
Context `{C : Collaborators}.

(** X8. When the Store read of [get_session] or [get_turn] raises, an
    [HTTPException] leaves the handler as it came, status and detail,
    and any other exception becomes a 500 whose detail is exactly
    [str(e)], with no prefix. *)
Theorem read_handlers_error_mapping (session_id turn_id : string)
    (s1 s2 : St) (e1 e2 : exn)
    (Hs : fst (session_lookup session_id s1) = Raise e1)
    (Ht : fst (turn_lookup turn_id s2) = Raise e2) :
  let mapped (e : exn) :=
    match e with
    | HTTPException c d => HTTPException c d
    | PyException _ m => HTTPException 500 m
    end in
  fst (get_session session_id s1) = Raise (mapped e1) /\
  fst (get_turn turn_id s2) = Raise (mapped e2).
Proof.
  cbv zeta. rewrite get_session_of_lookup, get_turn_of_lookup, Hs, Ht.
  destruct e1, e2; auto.
Qed.


(** X10. A listing that the Store answers is returned as it came: the
    turns in the Store's order, [count] their number (the size of the
    page, not of the session), and the repository was asked with the
    caller's [limit] and [skip] as given; they are not clamped. *)
Theorem get_session_turns_page (session_id : string) (limit skip : Z)
    (s : St) (turns : list pyval)
    (H : fst (turns_lookup session_id limit skip s) = Ok turns) :
  fst (get_session_turns session_id (Some limit) (Some skip) s) =
    Ok (PDict [("session_id", PStr session_id);
               ("count", PInt (Z.of_nat (length turns)));
               ("turns", PList turns)]) /\
  In (call_get_turns_by_session session_id limit skip)
     (calls (snd (get_session_turns session_id (Some limit) (Some skip) s))).
Proof.
  rewrite get_session_turns_of_lookup, get_session_turns_calls. simpl.
  rewrite H. split; [reflexivity |].
  exact (turns_lookup_calls _ _ _ _ _ H).
Qed.

(** X11. [health_check] reports its probe and nothing else: the
    [database] field is ["connected"] exactly when the handles, the
    [sessions] collection and the [find_one] all came back, whatever
    document [find_one] returned; otherwise it is ["error: "] followed by
    the text of the first exception.  The process is left as the probe
    left it. *)
Theorem health_check_reports_probe (s : St) :
  health_check s =
  (Ok {| HealthResponse.status := "healthy";
         HealthResponse.version := "1.0.0";
         HealthResponse.database :=
           match fst (health_probe s) with
           | Ok _ => "connected"
           | Raise e => "error: " +:+ py_str e
           end |},
   snd (health_probe s)).
Proof. exact (health_check_of_probe s). Qed.

(** X12. A handles dict without the collection a handler needs: the
    [KeyError] is caught like any other exception.  Without
    ["sessions"], [health_check] reports ["error: 'sessions'"] and
    [get_session] answers 500 with detail ["'sessions'"]; without
    ["turns"], [get_turn] and [get_session_turns] answer 500 with detail
    ["'turns'"].  No repository or collection call is made. *)
Theorem missing_collection_key (s : St) (h : gmap string Collection)
    (session_id turn_id : string) (limit skip : option Z)
    (Hh : fst (get_db_handles s) = Ok h) :
  (h !! "sessions" = None ->
   fst (health_check s) =
     Ok {| HealthResponse.status := "healthy";
           HealthResponse.version := "1.0.0";
           HealthResponse.database := "error: 'sessions'" |} /\
   fst (get_session session_id s) =
     Raise (HTTPException 500 "'sessions'") /\
   calls (snd (health_check s)) = calls (snd (get_db_handles s)) /\
   calls (snd (get_session session_id s)) = calls (snd (get_db_handles s)))
  /\
  (h !! "turns" = None ->
   fst (get_turn turn_id s) = Raise (HTTPException 500 "'turns'") /\
   fst (get_session_turns session_id limit skip s) =
     Raise (HTTPException 500 "'turns'") /\
   calls (snd (get_turn turn_id s)) = calls (snd (get_db_handles s)) /\
   calls (snd (get_session_turns session_id limit skip s)) =
     calls (snd (get_db_handles s))).
Proof.
  unfold health_check, get_session, get_turn, get_session_turns,
    try_except, bind, ret.
  destruct (get_db_handles s) as [[h' | e] s1]; [| discriminate Hh].
  simpl in Hh. injection Hh as ->.
  unfold getitem. split; intros ->; simpl; auto.
Qed.

(** X13. A health check that reports ["connected"] has opened the
    connection: the handles are cached afterwards, and they hold the
    [sessions] collection. *)
Theorem health_check_connected_opens (s : St) (r : HealthResponse.t)
    (H : fst (health_check s) = Ok r)
    (Hc : HealthResponse.database r = "connected") :
  exists (h : gmap string Collection) (c : Collection),
    _handles (snd (health_check s)) = Some h /\ h !! "sessions" = Some c.
Proof.
  rewrite health_check_of_probe in *. simpl in *.
  injection H as <-. simpl in Hc.
  unfold health_probe, bind, call in *.
  destruct (get_db_handles s) as [[h | e] s1] eqn:E; simpl in *;
    [| discriminate Hc].
  pose proof (get_db_handles_stores _ _ _ E) as Hst.
  unfold getitem in *.
  destruct (h !! "sessions") as [c |] eqn:Ek; simpl in *;
    [| discriminate Hc].
  exists h, c. split; [| exact Ek].
  destruct (find_one c _ (world s1)) as [[v | e] w]; simpl in *;
    [exact Hst | discriminate Hc].
Qed.

(** X14. When [run_turn] has returned and its result does not validate
    as a [TurnResponse], [create_turn] answers 500 with the validation
    error in the detail, and nothing is undone: the world is the one
    [run_turn] left. *)
Theorem create_turn_invalid_result (request : TurnRequest.t) (s : St)
    (result : pyval) (w' : World) (e : exn)
    (Hr : run_turn (run_turn_args request) (world s) = (Ok result, w'))
    (Hv : TurnResponse_init result = Raise e) :
  fst (create_turn request s) =
    Raise (HTTPException 500 ("Turn generation failed: " +:+ py_str e)) /\
  world (snd (create_turn request s)) = w'.
Proof.
  rewrite create_turn_result, create_turn_world, Hr. simpl.
  rewrite Hv. auto.
Qed.

(** X15. [run_turn] never receives an empty title: whatever the
    request, the [title_if_new] it is called with is a non-empty
    string. *)
Theorem run_turn_title_never_empty (request : TurnRequest.t) (s : St) :
  exists a : RunTurn.args,
    calls (snd (create_turn request s)) =
      (calls s ++ [call_run_turn a])%list /\
    RunTurn.title_if_new a <> "".
Proof.
  exists (run_turn_args request). split; [apply create_turn_calls |].
  destruct request as [ut sid att ui [[| c t] |] sc]; simpl; discriminate.
Qed.

(** X16. [user_text] and [session_id] reach [run_turn] exactly as sent.
    Unlike the title, an empty session id is not taken for a missing
    one: it is passed on as the empty string. *)
Theorem create_turn_forwards_ids (b : TurnRequest.body) (s : St) :
  exists a : RunTurn.args,
    calls (snd (create_turn (TurnRequest.of_body b) s)) =
      (calls s ++ [call_run_turn a])%list /\
    RunTurn.user_text a = TurnRequest.b_user_text b /\
    RunTurn.session_id a =
      match TurnRequest.b_session_id b with
      | Given v => Some v
      | _ => None
      end.
Proof.
  exists (run_turn_args (TurnRequest.of_body b)).
  split; [apply create_turn_calls |].
  destruct b as [ut [| | sid] att ui ti sc]; simpl; auto.
Qed.

(** X17. [root] needs nothing: in every state of the process it returns
    the banner without calling a collaborator and without changing
    anything, and the version in the banner is the version
    [health_check] reports. *)
Theorem root_banner (s : St) :
  exists (d : pydict) (r : HealthResponse.t),
    root s = (Ok (PDict d), s) /\
    fst (health_check s) = Ok r /\
    Ref.item "version" d = Some (PStr (HealthResponse.version r)) /\
    Ref.item "health" d = Some (PStr "/api/health").
Proof.
  rewrite health_check_of_probe.
  do 2 eexists. split; [reflexivity |]. split; [reflexivity |].
  split; reflexivity.
Qed.

End Outcomes.

(** ** Artifact paths *)

Lemma split_on_no_slash (s : string) :
  no_slash s = true -> split_on "/" s = [s].
Proof.
  induction s as [| a s IH]; [reflexivity |].
  cbn [no_slash split_on]. intros H.
  apply andb_prop in H as [Ha Hs].
  apply negb_true_iff in Ha. rewrite Ha, (IH Hs). reflexivity.
Qed.

Lemma split_on_segment (s t : string) :
  no_slash s = true ->
  split_on "/" (s +:+ String "/" t) = s :: split_on "/" t.
Proof.
  induction s as [| a s IH]; [reflexivity |].
  simpl. intros H.
  apply andb_prop in H as [Ha Hs].
  apply negb_true_iff in Ha. rewrite Ha, (IH Hs). reflexivity.
Qed.

Lemma split_on_artifact_path (session_id turn_id filename : string) :
  no_slash session_id = true -> no_slash turn_id = true ->
  no_slash filename = true ->
  split_on "/" (artifact_path session_id turn_id filename) =
  ["artifacts"; session_id; turn_id; filename].
Proof.
  intros Hs Ht Hf. unfold artifact_path.
  change ("artifacts/" +:+ session_id +:+ "/" +:+ turn_id +:+ "/"
          +:+ filename)
    with ("artifacts" +:+ String "/" (session_id +:+ String "/"
            (turn_id +:+ String "/" filename))).
  rewrite !split_on_segment by (reflexivity || assumption).
  rewrite split_on_no_slash by assumption. reflexivity.
Qed.

Lemma norm_step_plain (kept : list string) (comp : string) :
  plain_segment comp = true -> norm_step kept comp = comp :: kept.
Proof.
  unfold plain_segment, norm_step. intros H.
  apply andb_prop in H as [H H3]. apply andb_prop in H as [H H2].
  apply andb_prop in H as [_ H1].
  apply negb_true_iff in H1, H2, H3. rewrite H1, H2, H3. reflexivity.
Qed.

(** X18. Path segments that are plain names (no slash, not empty, not
    [.] or [..]) keep the artifact inside the root: the path resolves to
    exactly [artifacts/session_id/turn_id/filename], three levels below
    the root. *)
Theorem artifact_path_plain_inside_root (session_id turn_id filename : string)
    (Hs : plain_segment session_id = true)
    (Ht : plain_segment turn_id = true)
    (Hf : plain_segment filename = true) :
  normpath (artifact_path session_id turn_id filename) =
    ["artifacts"; session_id; turn_id; filename] /\
  inside_artifact_root (artifact_path session_id turn_id filename) = true.
Proof.
  assert (Hn : normpath (artifact_path session_id turn_id filename) =
               ["artifacts"; session_id; turn_id; filename]).
  { unfold normpath.
    rewrite split_on_artifact_path.
    - cbn [fold_left].
      rewrite (norm_step_plain [] "artifacts") by reflexivity.
      rewrite !norm_step_plain by assumption. reflexivity.
    - unfold plain_segment in Hs. repeat (apply andb_prop in Hs as [Hs _]).
      exact Hs.
    - unfold plain_segment in Ht. repeat (apply andb_prop in Ht as [Ht _]).
      exact Ht.
    - unfold plain_segment in Hf. repeat (apply andb_prop in Hf as [Hf _]).
      exact Hf. }
  split; [exact Hn |].
  unfold inside_artifact_root. rewrite Hn. reflexivity.
Qed.

(** X19. Segments without a slash never collide: two requests whose
    segments contain no slash and that lead to the same artifact path
    have the same session id, turn id and filename. *)
Theorem artifact_path_injective (s1 t1 f1 s2 t2 f2 : string)
    (Hs1 : no_slash s1 = true) (Ht1 : no_slash t1 = true)
    (Hf1 : no_slash f1 = true)
    (Hs2 : no_slash s2 = true) (Ht2 : no_slash t2 = true)
    (Hf2 : no_slash f2 = true)
    (H : artifact_path s1 t1 f1 = artifact_path s2 t2 f2) :
  s1 = s2 /\ t1 = t2 /\ f1 = f2.
Proof.
  apply (f_equal (split_on "/")) in H.
  rewrite !split_on_artifact_path in H by assumption.
  injection H as -> -> ->. auto.
Qed.

(** With a slash in a segment two different requests can name the same
    path. *)
Example artifact_path_collision :
  artifact_path "a/b" "c" "d.png" = artifact_path "a" "b/c" "d.png".
Proof. reflexivity. Qed.

(** ** The further properties at sample inputs *)

Lemma get_db_handles_cached_witness :
  let out := get_db_handles quiet in
  is_ok (fst out) = true /\
  get_db_handles (snd out) = (fst out, snd out).
Proof.
  cbv zeta. split; [reflexivity |].
  exact (proj2 (get_db_handles_cached quiet (snd (get_db_handles quiet))
                  {[ "sessions" := Ref.Sessions; "turns" := Ref.Turns ]}
                  eq_refl)).
Defined.

Lemma get_db_handles_failure_not_cached_witness :
  fst (get_db_handles offline) =
    Raise (PyException "ServerSelectionTimeoutError" "connection refused") /\
  _handles (snd (get_db_handles offline)) = None.
Proof.
  split; [reflexivity |].
  exact (proj1 (get_db_handles_failure_not_cached offline
                  (PyException "ServerSelectionTimeoutError"
                     "connection refused") eq_refl)).
Defined.

Lemma get_db_handles_first_use_witness :
  _handles quiet = None /\
  calls (snd (get_db_handles quiet)) =
    [call_load_settings;
     call_connect_mongo "mongodb://localhost:27017" "creative"].
Proof.
  split; [reflexivity |].
  exact (proj1 (proj2 (get_db_handles_first_use quiet eq_refl))).
Defined.

Lemma handlers_reuse_connection_witness :
  _handles connected =
    Some {[ "sessions" := Ref.Sessions; "turns" := Ref.Turns ]} /\
  List.filter is_connect (calls (snd (get_session "s404" connected))) =
    List.filter is_connect (calls connected).
Proof.
  split; [reflexivity |].
  destruct (handlers_reuse_connection connected
              {[ "sessions" := Ref.Sessions; "turns" := Ref.Turns ]}
              "s404" "t404" None None eq_refl)
    as (_ & (_ & _ & H) & _).
  exact H.
Defined.

Lemma read_handlers_error_mapping_witness :
  fst (session_lookup "0" offline) =
    Raise (PyException "ServerSelectionTimeoutError" "connection refused") /\
  fst (turn_lookup "0" offline) =
    Raise (PyException "ServerSelectionTimeoutError" "connection refused") /\
  fst (get_session "0" offline) =
    Raise (HTTPException 500 "connection refused") /\
  fst (get_turn "0" offline) = Raise (HTTPException 500 "connection refused").
Proof.
  do 2 (split; [reflexivity |]).
  exact (read_handlers_error_mapping "0" "0" offline offline _ _
           eq_refl eq_refl).
Defined.


Lemma get_session_turns_page_witness :
  fst (turns_lookup "0" 10 0 warm) = Ok [Ref.get_turn "0" (world warm)] /\
  fst (get_session_turns "0" (Some 10) (Some 0) warm) =
    Ok (PDict [("session_id", PStr "0"); ("count", PInt 1);
               ("turns", PList [Ref.get_turn "0" (world warm)])]).
Proof.
  split; [reflexivity |].
  exact (proj1 (get_session_turns_page "0" 10 0 warm
                  [Ref.get_turn "0" (world warm)] eq_refl)).
Defined.

Lemma missing_collection_key_witness :
  fst (get_db_handles bare) = Ok ∅ /\
  fst (get_session "0" bare) = Raise (HTTPException 500 "'sessions'") /\
  fst (get_turn "0" bare) = Raise (HTTPException 500 "'turns'").
Proof.
  split; [reflexivity |].
  destruct (missing_collection_key bare ∅ "0" "0" None None eq_refl)
    as (Hs & Ht).
  destruct (Hs eq_refl) as (_ & H1 & _).
  destruct (Ht eq_refl) as (H2 & _).
  split; [exact H1 | exact H2].
Defined.

Lemma health_check_connected_opens_witness :
  HealthResponse.database <$> (match fst (health_check quiet) with
                               | Ok r => Some r
                               | Raise _ => None
                               end) = Some "connected" /\
  exists (h : gmap string Ref.coll) (c : Ref.coll),
    _handles (snd (health_check quiet)) = Some h /\
    h !! "sessions" = Some c.
Proof.
  split; [reflexivity |].
  exact (health_check_connected_opens quiet
           {| HealthResponse.status := "healthy";
              HealthResponse.version := "1.0.0";
              HealthResponse.database := "connected" |} eq_refl eq_refl).
Defined.

Lemma create_turn_invalid_result_witness :
  let C := ref_with_runner terse_runner in
  let out := @create_turn C (TurnRequest.of_body banner)
               (@boot C (Ref.empty Ref.passing)) in
  is_ok (Ref.TurnResponse_init (PDict [("session_id", PStr "0")])) = false /\
  http_status (fst out) = 500 /\
  size (Ref.turns (@world C (snd out))) = 1%nat.
Proof.
  cbv zeta.
  split; [reflexivity |].
  destruct (@create_turn_invalid_result (ref_with_runner terse_runner)
              (TurnRequest.of_body banner)
              (@boot (ref_with_runner terse_runner) (Ref.empty Ref.passing))
              (PDict [("session_id", PStr "0")])
              (snd (terse_runner (run_turn_args (TurnRequest.of_body banner))
                      (Ref.empty Ref.passing)))
              (PyException "ValidationError"
                 "validation error for TurnResponse")
              eq_refl eq_refl) as (H1 & H2).
  split.
  - rewrite H1. reflexivity.
  - rewrite H2. reflexivity.
Defined.

Lemma artifact_path_plain_inside_root_witness :
  plain_segment "s1" = true /\ plain_segment "t1" = true /\
  plain_segment "banner.png" = true /\
  normpath (artifact_path "s1" "t1" "banner.png") =
    ["artifacts"; "s1"; "t1"; "banner.png"].
Proof.
  do 3 (split; [reflexivity |]).
  exact (proj1 (artifact_path_plain_inside_root "s1" "t1" "banner.png"
                  eq_refl eq_refl eq_refl)).
Defined.

Lemma artifact_path_injective_witness :
  artifact_path "s1" "t1" "banner.png" = artifact_path "s1" "t1" "banner.png"
  /\ ("s1" = "s1" /\ "t1" = "t1" /\ "banner.png" = "banner.png").
Proof.
  split; [reflexivity |].
  exact (artifact_path_injective "s1" "t1" "banner.png" "s1" "t1" "banner.png"
           eq_refl eq_refl eq_refl eq_refl eq_refl eq_refl eq_refl).
Defined.

(** ** Serving an artifact *)

Section ServingFacts.
Context `{F : FileSystem}.

Lemma serve_artifact_unfold (session_id turn_id filename : string) (s : St) :
  let p := "artifacts/" +:+ session_id +:+ "/" +:+ turn_id +:+ "/"
           +:+ filename in
  serve_artifact session_id turn_id filename s =
  (match os_stat p (world s) with
   | NoEntry => Raise (HTTPException 404 "Artifact not found")
   | Directory =>
       Raise (PyException "RuntimeError"
                ("File at path " +:+ p +:+ " is not a file."))
   | RegularFile content => Ok (content, "image/png")
   end,
   {| _settings := _settings s; _handles := _handles s; world := world s;
      calls := (calls s ++ [call_exists p])%list |}).
Proof.
  cbv zeta.
  unfold serve_artifact, get_artifact, artifact_path, send_file, bind, call,
    raise, ret.
  cbn [world FileResponse.path FileResponse.media_type].
  rewrite exists_is_stat.
  destruct (os_stat _ (world s)) eqn:E;
    cbn [negb world FileResponse.path FileResponse.media_type];
    rewrite ?E; reflexivity.
Qed.

(** C3. Where the claim fails: a path at which a directory exists.
    [os.path.exists] is true there, so [get_artifact] does not raise the
    404 but returns a [FileResponse] for the path
    ["artifacts/{session_id}/{turn_id}/{filename}"]; sending it raises
    [RuntimeError], which nobody handles, and the request ends in a
    500. *)
Theorem get_artifact_serves_directory (session_id turn_id filename : string)
    (s : St)
    (Hdir : os_stat ("artifacts/" +:+ session_id +:+ "/" +:+ turn_id +:+ "/"
                     +:+ filename) (world s) = Directory) :
  let p := "artifacts/" +:+ session_id +:+ "/" +:+ turn_id +:+ "/"
           +:+ filename in
  fst (get_artifact session_id turn_id filename s) =
    Ok {| FileResponse.path := p; FileResponse.media_type := "image/png" |} /\
  fst (serve_artifact session_id turn_id filename s) =
    Raise (PyException "RuntimeError"
             ("File at path " +:+ p +:+ " is not a file.")) /\
  unhandled (fst (serve_artifact session_id turn_id filename s)) = true /\
  http_status (fst (serve_artifact session_id turn_id filename s)) = 500.
Proof.
  cbv zeta. split.
  - unfold get_artifact, artifact_path, bind, call, raise, ret.
    cbn [world fst]. rewrite exists_is_stat, Hdir. reflexivity.
  - pose proof (serve_artifact_unfold session_id turn_id filename s) as H.
    cbv zeta in H. rewrite H, Hdir. cbn [fst unhandled http_status]. auto.
Qed.

(** X20. Everywhere else the artifact route does what is expected of
    it.  It looks at one path, the concatenation
    ["artifacts/{session_id}/{turn_id}/{filename}"] of the three
    components as they came, and changes nothing.  If nothing exists
    there it answers with the 404 [HTTPException]; if a regular file
    exists there it sends that file's bytes with media type
    [image/png]. *)
Theorem serve_artifact_absent_or_file (session_id turn_id filename : string)
    (s : St) :
  let p := "artifacts/" +:+ session_id +:+ "/" +:+ turn_id +:+ "/"
           +:+ filename in
  let out := serve_artifact session_id turn_id filename s in
  match os_stat p (world s) with
  | NoEntry =>
      fst out = Raise (HTTPException 404 "Artifact not found") /\
      http_status (fst out) = 404 /\ unhandled (fst out) = false
  | RegularFile content =>
      fst out = Ok (content, "image/png") /\
      http_status (fst out) = 200 /\ unhandled (fst out) = false
  | Directory => unhandled (fst out) = true
  end /\
  calls (snd out) = (calls s ++ [call_exists p])%list /\
  world (snd out) = world s /\
  _settings (snd out) = _settings s /\ _handles (snd out) = _handles s.
Proof.
  cbv zeta.
  pose proof (serve_artifact_unfold session_id turn_id filename s) as H.
  cbv zeta in H. rewrite H.
  destruct (os_stat _ (world s)); cbn; auto.
Qed.

End ServingFacts.

Lemma get_artifact_serves_directory_witness :
  Disk.stat "artifacts/s1/t1/." Disk.studio = Directory /\
  fst (@get_artifact disk_collaborators "s1" "t1" "."
         (@boot disk_collaborators Disk.studio)) =
    Ok {| FileResponse.path := "artifacts/s1/t1/.";
          FileResponse.media_type := "image/png" |} /\
  fst (@serve_artifact disk_collaborators disk_fs "s1" "t1" "."
         (@boot disk_collaborators Disk.studio)) =
    Raise (PyException "RuntimeError"
             "File at path artifacts/s1/t1/. is not a file.") /\
  http_status (fst (@serve_artifact disk_collaborators disk_fs "s1" "t1" "."
                      (@boot disk_collaborators Disk.studio))) = 500.
Proof.
  split; [reflexivity |].
  destruct (@get_artifact_serves_directory disk_collaborators disk_fs
              "s1" "t1" "." (@boot disk_collaborators Disk.studio) eq_refl)
    as (H1 & H2 & _ & H3).
  split; [exact H1 |]. split; [exact H2 | exact H3].
Defined.

(** The same route for the artifact itself, and for one that is not
    there. *)
Example serve_artifact_banner :
  fst (@serve_artifact disk_collaborators disk_fs "s1" "t1" "banner.png"
         (@boot disk_collaborators Disk.studio)) =
  Ok (Disk.png, "image/png").
Proof. reflexivity. Qed.

Example serve_artifact_missing :
  fst (@serve_artifact disk_collaborators disk_fs "s1" "t1" "poster.png"
         (@boot disk_collaborators Disk.studio)) =
  Raise (HTTPException 404 "Artifact not found").
Proof. reflexivity. Qed.
